(** * CudaOutputBuffer: the buffer-residency controller of
    [optix/sutils/cuda_output_buffer.py]

    A shallow embedding of the class [CudaOutputBuffer] and of the calls it
    makes into NumPy, CuPy and OpenGL.  A method is a computation in a
    state-and-exception monad: the state holds the slots of the object and
    the part of the CUDA / OpenGL runtime the class talks to, and a raised
    Python exception keeps every mutation made before it.

    Conventions of the model.
    - The collaborators are idealised as a recording test double: every call
      into them appends an event to a log, allocation never runs out of
      memory, every device index names a device and an OpenGL context is
      current.
    - A width or height argument is a NumPy integer scalar (the setters read
      it through [np.asscalar], that is [value.item()], of a NumPy that
      still has it); it is represented by the integer it holds.  [np.int32]
      takes that integer through a C [long] of 64 bits: beyond it the
      conversion raises [OverflowError], within it the value is cut to its
      low 32 bits.
    - A storage type ([pixel_format]) is an [np.dtype] instance, which is
      what the format resolver yields; the [np.generic] subclasses that the
      assertion of the setter admits as well are not modelled.  NumPy
      compares an [np.dtype] with the [None] of an unassigned slot by
      converting [None] to a storage type first, which gives its default
      one: the default storage type equals [None], every other one differs
      from it.
    - Comparing a member of the enumeration or an integer with the [None] a
      slot holds before its first assignment yields "different".
    - [assert] statements are executed. *)

From stdpp Require Import base decidable option list gmap strings.
From Stdlib Require Import ZArith Lia.

#[local] Open Scope string_scope.
#[local] Open Scope Z_scope.

(** ** The enumeration [CudaOutputBufferType] *)

Inductive CudaOutputBufferType : Set :=
| CUDA_DEVICE   (* = 0, not preferred, typically slower than ZERO_COPY *)
| GL_INTEROP    (* = 1, single device only *)
| ZERO_COPY     (* = 2, general case *)
| CUDA_P2P.     (* = 3, fully connected only *)

#[global] Instance CudaOutputBufferType_eq_dec : EqDecision CudaOutputBufferType.
Proof. solve_decision. Defined.

(** [str(member)] of a plain [enum.Enum] member. *)
Definition str_member (b : CudaOutputBufferType) : string :=
  match b with
  | CUDA_DEVICE => "CudaOutputBufferType.CUDA_DEVICE"
  | GL_INTEROP => "CudaOutputBufferType.GL_INTEROP"
  | ZERO_COPY => "CudaOutputBufferType.ZERO_COPY"
  | CUDA_P2P => "CudaOutputBufferType.CUDA_P2P"
  end.

(** ** Handles of the CUDA runtime *)

(** [cp.cuda.Device(id)] *)
Record Device : Set := mkDevice { device_id : Z }.
(** [cp.cuda.Stream] *)
Record Stream : Set := mkStream { stream_ptr : Z }.

#[global] Instance Device_eq_dec : EqDecision Device.
Proof. solve_decision. Defined.
#[global] Instance Stream_eq_dec : EqDecision Stream.
Proof. solve_decision. Defined.

(** ** Exceptions

    The builtin exceptions the class can raise, and the one the format
    resolver raises on a tag it does not know. *)

Inductive Exn : Set :=
| NameError (name : string)
| NotImplementedError (msg : string)
| AssertionError
| AttributeError
| TypeError
| ValueError
| OverflowError
| InvalidFormat (tag : string).

#[global] Instance Exn_eq_dec : EqDecision Exn.
Proof. solve_decision. Defined.

Inductive Result (A : Type) : Type :=
| Ok (a : A)
| Raise (e : Exn).
Arguments Ok {A} a.
Arguments Raise {A} e.

(** ** Names bound at module level

    The [import] statements and the two [class] statements of the file bind
    exactly these names; a name a method body reads without binding it
    locally is looked up here (none of the names the class reads this way is
    a builtin). *)
Definition module_globals : list string :=
  [ "enum"; "re"; "np"; "cp";
    "glGenBuffers"; "glBindBuffer"; "glBufferData"; "glBindBuffer";
    "GL_ARRAY_BUFFER"; "GL_STREAM_DRAW";
    "vtype_to_dtype";
    "CudaOutputBufferType"; "CudaOutputBuffer" ].

Definition int32_min : Z := - 2 ^ 31.
Definition int32_max : Z := 2 ^ 31 - 1.

(** The range of a C [long]. *)
Definition long_min : Z := - 2 ^ 63.
Definition long_max : Z := 2 ^ 63 - 1.

(** The low 32 bits of [z], read as a signed integer. *)
Definition wrap_int32 (z : Z) : Z := (z + 2 ^ 31) mod 2 ^ 32 - 2 ^ 31.

(** [np.int32(z)] for a Python integer [z]: the integer is converted to a C
    [long], which fails with [OverflowError] ([None] here) when it does not
    fit, and the [long] is then cut to 32 bits. *)
Definition np_int32 (z : Z) : option Z :=
  if (long_min <=? z) && (z <=? long_max) then Some (wrap_int32 z) else None.

Definition is_int32 (z : Z) : Prop := int32_min <= z <= int32_max.

(** ** A small format table, used to run the model on concrete inputs *)

Inductive sample_dtype : Set :=
| uchar4
| float4
| float64.

#[global] Instance sample_dtype_eq_dec : EqDecision sample_dtype.
Proof. solve_decision. Defined.

Definition sample_itemsize (d : sample_dtype) : Z :=
  match d with
  | uchar4 => 4
  | float4 => 16
  | float64 => 8
  end.

Definition sample_resolver (tag : string) : option sample_dtype :=
  if bool_decide (tag = "uchar4") then Some uchar4
  else if bool_decide (tag = "float4") then Some float4
  else None.

Module CudaOutputBuffer.
Section Controller.

(** The concrete storage types NumPy knows ([np.dtype] instances),
    compared with [==]. *)
Context {dtype : Type} `{EqDecision dtype}.

(** [np.dtype(d).itemsize], the size in bytes of one element. *)
Variable itemsize : dtype -> Z.

(** The storage type NumPy and CuPy take for [dtype=None]. *)
Variable default_dtype : dtype.

(** Modelled from the spec: [vtype_to_dtype], the format resolver, which
    the module imports from [optix.sutils.vecmath].  It maps a string tag to
    a concrete storage type and fails with [InvalidFormat] on an unknown
    tag; [None] stands for that failure. *)
Variable vtype_to_dtype : string -> option dtype.

(** An array made by [np.empty] or [cp.empty]: the address of its data,
    its two-dimensional shape and its element type. *)
Record ndarray : Type := mkArray {
  data_ptr : Z;
  shape : Z * Z;
  arr_dtype : dtype
}.

Definition nbytes (a : ndarray) : Z :=
  fst (shape a) * snd (shape a) * itemsize (arr_dtype a).

(** *** Python values that properties and name lookups yield *)
Inductive PyVal : Type :=
| VNone
| VInt32 (z : Z)                       (* np.int32 *)
| VInt (z : Z)                         (* int *)
| VDtype (d : dtype)
| VMember (b : CudaOutputBufferType)
| VDevice (d : Device)
| VStream (s : Stream)
| VGlobal (name : string).             (* module, function or class object *)

Definition py_str (v : PyVal) : string :=
  match v with
  | VNone => "None"
  | VMember b => str_member b
  | VGlobal name => "<" +:+ name +:+ ">"
  | _ => "<object>"
  end.

(** [v is CudaOutputBufferType.CUDA_DEVICE] *)
Definition is_CUDA_DEVICE (v : PyVal) : bool :=
  match v with
  | VMember CUDA_DEVICE => true
  | _ => false
  end.

(** f'Buffer type {buffer_type} has not been implemented yet.' *)
Definition not_implemented_msg (buffer_type : PyVal) : string :=
  "Buffer type " +:+ py_str buffer_type +:+ " has not been implemented yet.".

(** *** Calls into the collaborators, as a test double records them *)
Inductive Event : Type :=
| EvDeviceUse (d : Device)                    (* Device.use() *)
| EvNpEmpty (a : ndarray)                     (* np.empty *)
| EvCpEmpty (a : ndarray)                     (* cp.empty *)
| EvStreamSynchronize (s : Stream)            (* Stream.synchronize() *)
| EvMemcpyDeviceToHost (dst src n : Z)        (* cp.cuda.runtime.memcpy *)
| EvGlGenBuffers (name : Z)
| EvGlBindBuffer (name : Z)                   (* target GL_ARRAY_BUFFER *)
| EvGlBufferData (name : Z) (size : Z)        (* on the bound buffer *)
| EvGlDeleteBuffers (name : Z).

(** The CUDA and OpenGL state the class acts on. *)
Record World : Type := mkWorld {
  cuda_current : Z;            (* device selected by cudaSetDevice *)
  host_brk : Z;                (* next free host address *)
  device_brk : Z;              (* next free device address *)
  gl_next_name : Z;            (* next buffer name glGenBuffers hands out *)
  gl_bound : Z;                (* buffer bound to GL_ARRAY_BUFFER *)
  gl_store : gmap Z Z;         (* buffer name |-> size of its data store *)
  log : list Event             (* most recent call first *)
}.

(** The slots of a [CudaOutputBuffer]; every slot starts as [None]. *)
Record t : Type := mkSelf {
  _pixel_format : option dtype;
  _buffer_type : option CudaOutputBufferType;
  _width : option Z;
  _height : option Z;
  _device : option Device;
  _device_idx : option Z;
  _stream : option Stream;
  _host_buffer : option ndarray;
  _device_buffer : option ndarray;
  _pbo : option Z
}.

Record State : Type := mkState { self : t; world : World }.

(** *** The monad of methods *)
Definition M (A : Type) : Type := State -> Result A * State.

#[export] Instance M_ret : MRet M := fun A a st => (Ok a, st).
#[export] Instance M_bind : MBind M := fun A B f m st =>
  match m st with
  | (Ok a, st') => f a st'
  | (Raise e, st') => (Raise e, st')
  end.

Definition raise {A} (e : Exn) : M A := fun st => (Raise e, st).
Definition get_self : M t := fun st => (Ok (self st), st).
Definition modify_self (f : t -> t) : M unit :=
  fun st => (Ok tt, mkState (f (self st)) (world st)).
Definition get_world : M World := fun st => (Ok (world st), st).
Definition modify_world (f : World -> World) : M unit :=
  fun st => (Ok tt, mkState (self st) (f (world st))).

(** [assert b] *)
Definition assert (b : bool) : M unit :=
  if b then mret tt else raise AssertionError.

(** Reading a name that the function does not bind locally. *)
Definition load_global (name : string) : M PyVal :=
  if bool_decide (name ∈ module_globals) then mret (VGlobal name)
  else raise (NameError name).

(** *** Slot assignment *)
Definition set_pixel_format_slot (v : option dtype) (c : t) : t :=
  mkSelf v (_buffer_type c) (_width c) (_height c) (_device c)
         (_device_idx c) (_stream c) (_host_buffer c) (_device_buffer c) (_pbo c).
Definition set_buffer_type_slot (v : option CudaOutputBufferType) (c : t) : t :=
  mkSelf (_pixel_format c) v (_width c) (_height c) (_device c)
         (_device_idx c) (_stream c) (_host_buffer c) (_device_buffer c) (_pbo c).
Definition set_width_slot (v : option Z) (c : t) : t :=
  mkSelf (_pixel_format c) (_buffer_type c) v (_height c) (_device c)
         (_device_idx c) (_stream c) (_host_buffer c) (_device_buffer c) (_pbo c).
Definition set_height_slot (v : option Z) (c : t) : t :=
  mkSelf (_pixel_format c) (_buffer_type c) (_width c) v (_device c)
         (_device_idx c) (_stream c) (_host_buffer c) (_device_buffer c) (_pbo c).
Definition set_device_slot (v : option Device) (c : t) : t :=
  mkSelf (_pixel_format c) (_buffer_type c) (_width c) (_height c) v
         (_device_idx c) (_stream c) (_host_buffer c) (_device_buffer c) (_pbo c).
Definition set_device_idx_slot (v : option Z) (c : t) : t :=
  mkSelf (_pixel_format c) (_buffer_type c) (_width c) (_height c) (_device c)
         v (_stream c) (_host_buffer c) (_device_buffer c) (_pbo c).
Definition set_stream_slot (v : option Stream) (c : t) : t :=
  mkSelf (_pixel_format c) (_buffer_type c) (_width c) (_height c) (_device c)
         (_device_idx c) v (_host_buffer c) (_device_buffer c) (_pbo c).
Definition set_host_buffer_slot (v : option ndarray) (c : t) : t :=
  mkSelf (_pixel_format c) (_buffer_type c) (_width c) (_height c) (_device c)
         (_device_idx c) (_stream c) v (_device_buffer c) (_pbo c).
Definition set_device_buffer_slot (v : option ndarray) (c : t) : t :=
  mkSelf (_pixel_format c) (_buffer_type c) (_width c) (_height c) (_device c)
         (_device_idx c) (_stream c) (_host_buffer c) v (_pbo c).
Definition set_pbo_slot (v : option Z) (c : t) : t :=
  mkSelf (_pixel_format c) (_buffer_type c) (_width c) (_height c) (_device c)
         (_device_idx c) (_stream c) (_host_buffer c) (_device_buffer c) v.

(** [for attr in self.__slots__: setattr(self, attr, None)] *)
Definition blank : t :=
  mkSelf None None None None None None None None None None.

(** *** The collaborators *)
Definition record (e : Event) (w : World) : World :=
  mkWorld (cuda_current w) (host_brk w) (device_brk w) (gl_next_name w)
          (gl_bound w) (gl_store w) (e :: log w).

(** [device.use()] *)
Definition Device_use (d : Device) : M unit :=
  modify_world (fun w =>
    record (EvDeviceUse d)
      (mkWorld (device_id d) (host_brk w) (device_brk w) (gl_next_name w)
               (gl_bound w) (gl_store w) (log w))).

(** [stream.synchronize()] *)
Definition Stream_synchronize (s : Stream) : M unit :=
  modify_world (record (EvStreamSynchronize s)).

(** The [dtype=] argument of [empty]. *)
Definition as_dtype (v : PyVal) : M dtype :=
  match v with
  | VNone => mret default_dtype
  | VDtype d => mret d
  | _ => raise TypeError
  end.

(** The [shape=] argument of [empty]: a pair of integers, none negative. *)
Definition as_shape (v : PyVal * PyVal) : M (Z * Z) :=
  match v with
  | (VInt32 w, VInt32 h) | (VInt32 w, VInt h)
  | (VInt w, VInt32 h) | (VInt w, VInt h) =>
      if (w <? 0) || (h <? 0) then raise ValueError else mret (w, h)
  | _ => raise TypeError
  end.

(** [np.empty(shape=shape, dtype=dtype)] *)
Definition np_empty (shape : PyVal * PyVal) (dt : PyVal) : M ndarray :=
  d ← as_dtype dt;
  sh ← as_shape shape;
  w ← get_world;
  let a := mkArray (host_brk w) sh d in
  modify_world (fun w =>
    record (EvNpEmpty a)
      (mkWorld (cuda_current w) (host_brk w + nbytes a) (device_brk w)
               (gl_next_name w) (gl_bound w) (gl_store w) (log w)));;
  mret a.

(** [cp.empty(shape=shape, dtype=dtype)] *)
Definition cp_empty (shape : PyVal * PyVal) (dt : PyVal) : M ndarray :=
  d ← as_dtype dt;
  sh ← as_shape shape;
  w ← get_world;
  let a := mkArray (device_brk w) sh d in
  modify_world (fun w =>
    record (EvCpEmpty a)
      (mkWorld (cuda_current w) (host_brk w) (device_brk w + nbytes a)
               (gl_next_name w) (gl_bound w) (gl_store w) (log w)));;
  mret a.

(** [cp.cuda.runtime.memcpy(dst, src, n, memcpyDeviceToHost)] *)
Definition memcpy_device_to_host (dst src n : Z) : M unit :=
  modify_world (record (EvMemcpyDeviceToHost dst src n)).

(** [glGenBuffers(1)] *)
Definition glGenBuffers : M Z :=
  w ← get_world;
  let name := gl_next_name w in
  modify_world (fun w =>
    record (EvGlGenBuffers name)
      (mkWorld (cuda_current w) (host_brk w) (device_brk w) (name + 1)
               (gl_bound w) (gl_store w) (log w)));;
  mret name.

(** [glBindBuffer(GL_ARRAY_BUFFER, name)] *)
Definition glBindBuffer (name : Z) : M unit :=
  modify_world (fun w =>
    record (EvGlBindBuffer name)
      (mkWorld (cuda_current w) (host_brk w) (device_brk w) (gl_next_name w)
               name (gl_store w) (log w))).

(** [glBufferData(GL_ARRAY_BUFFER, array, GL_STREAM_DRAW)] *)
Definition glBufferData (a : ndarray) : M unit :=
  modify_world (fun w =>
    record (EvGlBufferData (gl_bound w) (nbytes a))
      (mkWorld (cuda_current w) (host_brk w) (device_brk w) (gl_next_name w)
               (gl_bound w) (<[gl_bound w := nbytes a]> (gl_store w)) (log w))).

(** [glDeleteBuffers(1, name)] *)
Definition glDeleteBuffers (name : Z) : M unit :=
  modify_world (fun w =>
    record (EvGlDeleteBuffers name)
      (mkWorld (cuda_current w) (host_brk w) (device_brk w) (gl_next_name w)
               (gl_bound w) (delete name (gl_store w)) (log w))).

(** Reading an attribute of what a slot holds: [None] has none. *)
Definition attr {A} (o : option A) : M A :=
  match o with
  | Some a => mret a
  | None => raise AttributeError
  end.

(** Passing what a slot holds where OpenGL wants a buffer or an array:
    [None] is refused. *)
Definition gl_arg {A} (o : option A) : M A :=
  match o with
  | Some a => mret a
  | None => raise TypeError
  end.

(** *** Property getters *)
Definition of_slot {A} (inj : A -> PyVal) (o : option A) : PyVal :=
  match o with
  | Some a => inj a
  | None => VNone
  end.

Definition _get_pixel_format : M PyVal :=
  c ← get_self; mret (of_slot VDtype (_pixel_format c)).
Definition _get_buffer_type : M PyVal :=
  c ← get_self; mret (of_slot VMember (_buffer_type c)).
Definition _get_width : M PyVal :=
  c ← get_self; mret (of_slot VInt32 (_width c)).
Definition _get_height : M PyVal :=
  c ← get_self; mret (of_slot VInt32 (_height c)).
(** [return self._device] *)
Definition _get_device_idx : M PyVal :=
  c ← get_self; mret (of_slot VDevice (_device c)).
Definition _get_stream : M PyVal :=
  c ← get_self; mret (of_slot VStream (_stream c)).

(** *** Property setters *)

(** What a caller may assign to [pixel_format]: a string tag, a storage
    type, or some class that is no [np.generic] subclass. *)
Inductive FormatArg : Type :=
| FmtStr (tag : string)
| FmtDtype (d : dtype)
| FmtClass (name : string).

(** [value != slot] for a storage type [value]: [np.dtype.__ne__] converts
    its right operand to a storage type, and [None] converts to the default
    one. *)
Definition dtype_ne (value : dtype) (slot : option dtype) : bool :=
  bool_decide (value ≠ default default_dtype slot).

Definition _set_pixel_format (value : FormatArg) : M unit :=
  value ← match value with
          | FmtStr tag =>
              match vtype_to_dtype tag with
              | Some d => mret (FmtDtype d)
              | None => raise (InvalidFormat tag)
              end
          | _ => mret value
          end;
  value ← match value with
          | FmtDtype d => mret d
          | FmtClass _ => raise AssertionError
          | FmtStr _ => raise TypeError
          end;
  c ← get_self;
  if dtype_ne value (_pixel_format c) then
    modify_self (set_pixel_format_slot (Some value));;
    modify_self (set_host_buffer_slot None);;
    modify_self (set_device_buffer_slot None)
  else mret tt.

(** The argument is a member of the enumeration, so the [isinstance]
    assertion holds. *)
Definition _set_buffer_type (value : CudaOutputBufferType) : M unit :=
  assert true;;
  c ← get_self;
  if bool_decide (Some value ≠ _buffer_type c) then
    modify_self (set_buffer_type_slot (Some value));;
    modify_self (set_host_buffer_slot None);;
    modify_self (set_device_buffer_slot None)
  else mret tt.

Definition _set_width (value : Z) : M unit :=
  assert (1 <=? value);;
  value ← match np_int32 value with
          | Some v => mret v
          | None => raise OverflowError
          end;
  c ← get_self;
  if bool_decide (Some value ≠ _width c) then
    modify_self (set_width_slot (Some value));;
    modify_self (set_host_buffer_slot None);;
    modify_self (set_device_buffer_slot None)
  else mret tt.

Definition _set_height (value : Z) : M unit :=
  assert (1 <=? value);;
  value ← match np_int32 value with
          | Some v => mret v
          | None => raise OverflowError
          end;
  c ← get_self;
  if bool_decide (Some value ≠ _height c) then
    modify_self (set_height_slot (Some value));;
    modify_self (set_host_buffer_slot None);;
    modify_self (set_device_buffer_slot None)
  else mret tt.

(** [if value is None: device_idx = 0] binds a local name that is not
    read again; [None >= 0] is a [TypeError]. *)
Definition _set_device_idx (value : option Z) : M unit :=
  value ← match value with
          | None => raise TypeError
          | Some v => assert (0 <=? v);; mret v
          end;
  c ← get_self;
  if bool_decide (Some value ≠ _device_idx c) then
    modify_self (set_device_idx_slot (Some value));;
    modify_self (set_device_slot (Some (mkDevice value)));;
    modify_self (set_host_buffer_slot None);;
    modify_self (set_device_buffer_slot None)
  else mret tt.

(** [cp.cuda.Stream.null] *)
Definition Stream_null : Stream := mkStream 0.

(** The assertion reads the name [stream], which the method never binds. *)
Definition _set_stream (value : option Stream) : M unit :=
  let value := match value with
               | None => Stream_null
               | Some s => s
               end in
  stream ← load_global "stream";
  assert (match stream with VStream _ => true | _ => false end);;
  modify_self (set_stream_slot (Some value)).

(** *** Methods *)
Definition _make_current : M unit :=
  c ← get_self;
  d ← attr (_device c);
  Device_use d.

Definition copy_device_to_host : M unit :=
  c ← get_self;
  host ← attr (_host_buffer c);
  dev ← attr (_device_buffer c);
  memcpy_device_to_host (data_ptr host) (data_ptr dev) (nbytes host).

Definition copy_host_to_pbo : M unit :=
  c ← get_self;
  pbo ← gl_arg (_pbo c);
  glBindBuffer pbo;;
  host ← gl_arg (_host_buffer c);
  glBufferData host;;
  glBindBuffer 0.

Definition _reallocate_buffers : M unit :=
  buffer_type ← _get_buffer_type;
  dtype ← _get_pixel_format;
  width ← _get_width;
  height ← _get_height;
  let shape := (width, height) in
  if is_CUDA_DEVICE buffer_type then
    host ← np_empty shape dtype;
    modify_self (set_host_buffer_slot (Some host));;
    dev ← cp_empty shape dtype;
    modify_self (set_device_buffer_slot (Some dev));;
    c ← get_self;
    match _pbo c with
    | Some pbo =>
        glBindBuffer pbo;;
        host ← gl_arg (_host_buffer c);
        glBufferData host;;
        glBindBuffer 0
    | None => mret tt
    end
  else raise (NotImplementedError (not_implemented_msg buffer_type)).

Definition resize (width height : Z) : M unit :=
  _set_width width;;
  _set_height height.

Definition __init__ (buffer_type : CudaOutputBufferType)
    (pixel_format : FormatArg) (width height : Z) (device_idx : option Z)
  : M unit :=
  modify_self (fun _ => blank);;
  _set_device_idx device_idx;;
  _set_pixel_format pixel_format;;
  _set_buffer_type buffer_type;;
  resize width height;;
  _reallocate_buffers.

(** [buffer_type] is not bound in this method: it is read as a global. *)
Definition get_host_buffer : M (option ndarray) :=
  buffer_type ← load_global "buffer_type";
  if is_CUDA_DEVICE buffer_type then
    copy_device_to_host;;
    c ← get_self;
    mret (_host_buffer c)
  else raise (NotImplementedError (not_implemented_msg buffer_type)).

Definition map : M Z :=
  _make_current;;
  c ← get_self;
  (if bool_decide (_host_buffer c = None) || bool_decide (_device_buffer c = None)
   then _reallocate_buffers else mret tt);;
  c ← get_self;
  dev ← attr (_device_buffer c);
  mret (data_ptr dev).

(** [buffer_type] is not bound in this method either. *)
Definition unmap : M unit :=
  _make_current;;
  buffer_type ← load_global "buffer_type";
  if is_CUDA_DEVICE buffer_type then
    c ← get_self;
    stream ← attr (_stream c);
    Stream_synchronize stream
  else raise (NotImplementedError (not_implemented_msg buffer_type)).

Definition get_pbo : M (option Z) :=
  buffer_type ← _get_buffer_type;
  _make_current;;
  c ← get_self;
  (match _pbo c with
   | None => name ← glGenBuffers; modify_self (set_pbo_slot (Some name))
   | Some _ => mret tt
   end);;
  (if is_CUDA_DEVICE buffer_type then
     copy_device_to_host;;
     copy_host_to_pbo
   else raise (NotImplementedError (not_implemented_msg buffer_type)));;
  c ← get_self;
  mret (_pbo c).

(** The module imports [glBindBuffer] twice and [glDeleteBuffers] not at
    all. *)
Definition delete_pbo : M unit :=
  c ← get_self;
  match _pbo c with
  | None => mret tt
  | Some pbo =>
      glBindBuffer 0;;
      _ ← load_global "glDeleteBuffers";
      glDeleteBuffers pbo;;
      modify_self (set_pbo_slot None)
  end.

(** *** Running a controller *)

(** The public calls a caller can make on a constructed controller. *)
Inductive Call : Type :=
| Set_pixel_format (value : FormatArg)
| Set_buffer_type (value : CudaOutputBufferType)
| Set_width (value : Z)
| Set_height (value : Z)
| Set_device_idx (value : option Z)
| Set_stream (value : option Stream)
| Resize (width height : Z)
| Get_host_buffer
| Map
| Unmap
| Get_pbo
| Delete_pbo.

(** The state a computation leaves, whether it returns or raises. *)
Definition after {A} (m : M A) (st : State) : State := snd (m st).

(** The caller goes on after an exception: the state it left stays. *)
Definition exec (c : Call) (st : State) : State :=
  match c with
  | Set_pixel_format v => after (_set_pixel_format v) st
  | Set_buffer_type v => after (_set_buffer_type v) st
  | Set_width v => after (_set_width v) st
  | Set_height v => after (_set_height v) st
  | Set_device_idx v => after (_set_device_idx v) st
  | Set_stream v => after (_set_stream v) st
  | Resize w h => after (resize w h) st
  | Get_host_buffer => after get_host_buffer st
  | Map => after map st
  | Unmap => after unmap st
  | Get_pbo => after get_pbo st
  | Delete_pbo => after delete_pbo st
  end.

Fixpoint run (cs : list Call) (st : State) : State :=
  match cs with
  | [] => st
  | c :: cs => run cs (exec c st)
  end.

Definition is_release (c : Call) : bool :=
  match c with
  | Delete_pbo => true
  | _ => false
  end.

(** *** Reading the log *)
Fixpoint count_events (p : Event -> bool) (l : list Event) : nat :=
  match l with
  | [] => 0%nat
  | e :: l => ((if p e then 1 else 0) + count_events p l)%nat
  end.

Definition is_np_empty (e : Event) : bool :=
  match e with EvNpEmpty _ => true | _ => false end.
Definition is_cp_empty (e : Event) : bool :=
  match e with EvCpEmpty _ => true | _ => false end.
Definition is_synchronize (e : Event) : bool :=
  match e with EvStreamSynchronize _ => true | _ => false end.
Definition is_memcpy (e : Event) : bool :=
  match e with EvMemcpyDeviceToHost _ _ _ => true | _ => false end.
Definition is_gen_buffers (e : Event) : bool :=
  match e with EvGlGenBuffers _ => true | _ => false end.
Definition is_delete_buffers (e : Event) : bool :=
  match e with EvGlDeleteBuffers _ => true | _ => false end.

Definition host_allocations (st : State) : nat :=
  count_events is_np_empty (log (world st)).
Definition device_allocations (st : State) : nat :=
  count_events is_cp_empty (log (world st)).
Definition synchronizations (st : State) : nat :=
  count_events is_synchronize (log (world st)).
Definition copies_to_host (st : State) : nat :=
  count_events is_memcpy (log (world st)).
Definition handles_created (st : State) : nat :=
  count_events is_gen_buffers (log (world st)).
Definition handles_destroyed (st : State) : nat :=
  count_events is_delete_buffers (log (world st)).

(** *** Well-formed controllers *)

(** The device handle is the one acquired for the configured index. *)
Definition device_bound (c : t) : Prop :=
  match _device_idx c with
  | Some i => _device c = Some (mkDevice i)
  | None => True
  end.

(** A buffer, when materialized, has the shape and element type of the
    descriptor. *)
Definition matches_descriptor (d : dtype) (w h : Z) (o : option ndarray) : Prop :=
  match o with
  | Some a => shape a = (w, h) /\ arr_dtype a = d
  | None => True
  end.

(** The storage type the buffers of the controller are made of: the one
    the [pixel_format] slot holds, and the default one [np.empty] and
    [cp.empty] take for the [None] of a slot that was never assigned. *)
Definition storage_dtype (c : t) : dtype :=
  default default_dtype (_pixel_format c).

(** What the [pixel_format] slot holds once the storage type [d] has been
    assigned to a slot that held [None], as in the constructor: the default
    storage type compares equal to [None] and is not stored. *)
Definition first_format (d : dtype) : option dtype :=
  if decide (d = default_dtype) then None else Some d.

(** A controller whose descriptor is [(b, d, w, h, i)] and whose storage is
    consistent with it. *)
Definition configured (b : CudaOutputBufferType) (d : dtype) (w h i : Z)
    (c : t) : Prop :=
  _buffer_type c = Some b /\ storage_dtype c = d /\
  _width c = Some w /\ _height c = Some h /\
  _device_idx c = Some i /\ _device c = Some (mkDevice i) /\
  matches_descriptor d w h (_host_buffer c) /\
  matches_descriptor d w h (_device_buffer c).

(** Some descriptor with which the storage is consistent. *)
Definition is_configured (c : t) : Prop :=
  exists b d w h i, configured b d w h i c.

(** Every slot but the stream and the display buffer handle. *)
Definition storage_slots (st : State) :=
  (_pixel_format (self st), _buffer_type (self st), _width (self st),
   _height (self st), _device_idx (self st), _device (self st),
   _host_buffer (self st), _device_buffer (self st)).

(** A pixel-format argument that resolves to the storage type [d]. *)
Definition resolves_to (value : FormatArg) (d : dtype) : Prop :=
  match value with
  | FmtStr tag => vtype_to_dtype tag = Some d
  | FmtDtype d' => d' = d
  | FmtClass _ => False
  end.

(** The runtime before the controller is made: device 0 selected, nothing
    allocated, no buffer bound. *)
Definition initial_world : World :=
  mkWorld 0 4096 8192 1 0 ∅ [].

(** [object.__new__]: the instance [__init__] receives. *)
Definition new_instance : State := mkState blank initial_world.

(** *** Frames *)

(** The computation [m] leaves the observation [f] of the state as it was,
    whether it returns or raises. *)
Definition unchanged {A X} (f : State -> X) (m : M A) : Prop :=
  forall st, f (snd (m st)) = f st.

(** The display buffer handle and the number of handles made so far. *)
Definition display_handle (st : State) : option Z * nat :=
  (_pbo (self st), handles_created st).

(** The device slots. *)
Definition device_slots (st : State) : option Z * option Device :=
  (_device_idx (self st), _device (self st)).

(** [map] takes its reallocation path. *)
Definition needs_reallocation (c : t) : bool :=
  bool_decide (_host_buffer c = None) || bool_decide (_device_buffer c = None).

(** The call assigns to a descriptor field the value the field holds. *)
Definition assigns_current (c : Call) (s : t) : Prop :=
  match c with
  | Set_pixel_format value =>
      exists d, resolves_to value d /\ _pixel_format s = Some d
  | Set_buffer_type value => _buffer_type s = Some value
  | Set_width value => _width s = Some value /\ is_int32 value
  | Set_height value => _height s = Some value /\ is_int32 value
  | Set_device_idx value => _device_idx s = value
  | _ => False
  end.

(** The call assigns to a descriptor field a valid value that differs from
    the one the field holds, as the setter's [!=] compares them. *)
Definition assigns_new (c : Call) (s : t) : Prop :=
  match c with
  | Set_pixel_format value =>
      exists d, resolves_to value d /\ dtype_ne d (_pixel_format s) = true
  | Set_buffer_type value => _buffer_type s <> Some value
  | Set_width value => 1 <= value <= int32_max /\ _width s <> Some value
  | Set_height value => 1 <= value <= int32_max /\ _height s <> Some value
  | Set_device_idx value =>
      exists i, value = Some i /\ 0 <= i /\ _device_idx s <> Some i
  | _ => False
  end.

(** What an accepted assignment of a new value does to the slots. *)
Definition invalidated (c : t) : t :=
  set_device_buffer_slot None (set_host_buffer_slot None c).

(** The runtime once [d.use()] has run. *)
Definition used (d : Device) (st : State) : State :=
  mkState (self st)
    (record (EvDeviceUse d)
       (mkWorld (device_id d) (host_brk (world st)) (device_brk (world st))
          (gl_next_name (world st)) (gl_bound (world st))
          (gl_store (world st)) (log (world st)))).

(** The call assigns to a property, or is [resize]. *)
Definition is_assignment (c : Call) : bool :=
  match c with
  | Set_pixel_format _ | Set_buffer_type _ | Set_width _ | Set_height _
  | Set_device_idx _ | Set_stream _ | Resize _ _ => true
  | _ => false
  end.

(** *** Tactics that run the model *)

(** Unfolding the monad. *)
Ltac unfold_monad :=
  unfold after, mbind, M_bind, mret, M_ret, raise, assert, attr, gl_arg,
    get_self, get_world, modify_self, modify_world in *.

(** Unfolding the methods down to the collaborators. *)
Ltac unfold_methods :=
  unfold exec, resize, map, unmap, get_host_buffer,
    _reallocate_buffers, copy_device_to_host, copy_host_to_pbo,
    _make_current, _set_pixel_format, _set_buffer_type, _set_width,
    _set_height, _set_device_idx, _set_stream,
    _get_buffer_type, _get_pixel_format, _get_width, _get_height,
    np_empty, cp_empty, as_dtype, as_shape.

(** Running a method on a state given slot by slot. *)
Ltac run_method :=
  unfold get_pbo, delete_pbo, glGenBuffers, glBindBuffer, glBufferData,
    glDeleteBuffers, memcpy_device_to_host, Device_use, Stream_synchronize;
  unfold_methods; unfold_monad; cbn.

(** A state given slot by slot is configured: by its own descriptor. *)
Ltac configured_now :=
  do 5 eexists; unfold configured; cbn -[matches_descriptor];
  split_and!;
  first [ reflexivity | eassumption | exact I | split; reflexivity ].

(** ** Properties *)

Lemma bind_ok {A B} (m : M A) (f : A -> M B) st a st' :
  m st = (Ok a, st') -> (m ≫= f) st = f a st'.
Proof. intros Hm. unfold mbind, M_bind. rewrite Hm. reflexivity. Qed.

Lemma bind_raise {A B} (m : M A) (f : A -> M B) st e st' :
  m st = (Raise e, st') -> (m ≫= f) st = (Raise e, st').
Proof. intros Hm. unfold mbind, M_bind. rewrite Hm. reflexivity. Qed.

(** *** Name lookups *)

Lemma load_global_buffer_type st :
  load_global "buffer_type" st = (Raise (NameError "buffer_type"), st).
Proof. reflexivity. Qed.

Lemma load_global_glDeleteBuffers st :
  load_global "glDeleteBuffers" st = (Raise (NameError "glDeleteBuffers"), st).
Proof. reflexivity. Qed.

Lemma load_global_stream st :
  load_global "stream" st = (Raise (NameError "stream"), st).
Proof. reflexivity. Qed.

(** The stream property cannot be assigned: the slot keeps what it held. *)
Lemma _set_stream_raises value st :
  _set_stream value st = (Raise (NameError "stream"), st).
Proof. reflexivity. Qed.

(** *** Selecting the device *)

Lemma _make_current_bound st d :
  _device (self st) = Some d ->
  _make_current st = (Ok tt, used d st).
Proof.
  intros Hd. unfold _make_current, Device_use. unfold_monad.
  cbn. rewrite Hd. reflexivity.
Qed.

Lemma _make_current_unbound st :
  _device (self st) = None ->
  _make_current st = (Raise AttributeError, st).
Proof.
  intros Hd. unfold _make_current. unfold_monad. cbn. rewrite Hd. reflexivity.
Qed.

(** *** [unmap] and [get_host_buffer] read an unbound name *)

Lemma unmap_bound st d :
  _device (self st) = Some d ->
  unmap st = (Raise (NameError "buffer_type"), used d st).
Proof.
  intros Hd. unfold unmap.
  rewrite (bind_ok _ _ _ _ _ (_make_current_bound st d Hd)).
  apply bind_raise, load_global_buffer_type.
Qed.

Lemma unmap_unbound st :
  _device (self st) = None ->
  unmap st = (Raise AttributeError, st).
Proof.
  intros Hd. unfold unmap. apply bind_raise, _make_current_unbound, Hd.
Qed.

Lemma get_host_buffer_unbound_name st :
  get_host_buffer st = (Raise (NameError "buffer_type"), st).
Proof. reflexivity. Qed.

(** C1.  For a controller of type [CUDA_DEVICE] with its device bound,
    [unmap] selects the device and then raises [NameError] on the name
    [buffer_type]: it does not complete normally, and no call to
    [synchronize] reaches the stream. *)
Theorem unmap_device_local_raises st d :
  _buffer_type (self st) = Some CUDA_DEVICE ->
  _device (self st) = Some d ->
  fst (unmap st) = Raise (NameError "buffer_type") /\
  synchronizations (after unmap st) = synchronizations st.
Proof.
  intros _ Hd. unfold after. rewrite (unmap_bound st d Hd).
  split; reflexivity.
Qed.

(** *** Unimplemented buffer types *)

Lemma _reallocate_buffers_unimplemented st b :
  _buffer_type (self st) = Some b -> b <> CUDA_DEVICE ->
  _reallocate_buffers st =
    (Raise (NotImplementedError (not_implemented_msg (VMember b))), st).
Proof.
  intros Hb Hne. destruct st as [c w]. cbn in Hb.
  unfold _reallocate_buffers, _get_buffer_type, _get_pixel_format,
    _get_width, _get_height.
  unfold_monad. cbn. rewrite Hb. cbn.
  destruct b; [congruence | reflexivity ..].
Qed.

Lemma map_unimplemented st b d :
  _buffer_type (self st) = Some b -> b <> CUDA_DEVICE ->
  _device (self st) = Some d ->
  _host_buffer (self st) = None \/ _device_buffer (self st) = None ->
  map st =
    (Raise (NotImplementedError (not_implemented_msg (VMember b))), used d st).
Proof.
  intros Hb Hne Hd Hnull. unfold map.
  rewrite (bind_ok _ _ _ _ _ (_make_current_bound st d Hd)).
  unfold mbind at 1, M_bind at 1, get_self at 1. cbn [self used].
  assert (bool_decide (_host_buffer (self st) = None)
          || bool_decide (_device_buffer (self st) = None) = true) as ->.
  { destruct Hnull as [-> | ->]; cbn; [reflexivity | apply orb_true_r]. }
  apply bind_raise.
  apply _reallocate_buffers_unimplemented; assumption.
Qed.

Lemma get_pbo_unimplemented st b d :
  _buffer_type (self st) = Some b -> b <> CUDA_DEVICE ->
  _device (self st) = Some d ->
  fst (get_pbo st) =
    Raise (NotImplementedError (not_implemented_msg (VMember b))).
Proof.
  intros Hb Hne Hd. destruct st as [c w]. cbn in Hb, Hd.
  unfold get_pbo, _get_buffer_type, _make_current, Device_use, glGenBuffers.
  unfold_monad. cbn. rewrite Hb, Hd. cbn.
  destruct b; [congruence | ..]; destruct (_pbo c); reflexivity.
Qed.

(** C6.  Under [GL_INTEROP], [ZERO_COPY] and [CUDA_P2P] the reallocation
    path of [map] and the export [get_pbo] raise the placeholder
    [NotImplementedError] that names the buffer type, whereas [unmap] and
    [get_host_buffer] raise [NameError] on the unbound name [buffer_type]
    before they reach their placeholder. *)
Theorem unimplemented_types_transfer_operations st b d :
  _buffer_type (self st) = Some b -> b <> CUDA_DEVICE ->
  _device (self st) = Some d ->
  _host_buffer (self st) = None \/ _device_buffer (self st) = None ->
  fst (map st) = Raise (NotImplementedError (not_implemented_msg (VMember b))) /\
  fst (get_pbo st) = Raise (NotImplementedError (not_implemented_msg (VMember b))) /\
  fst (unmap st) = Raise (NameError "buffer_type") /\
  fst (get_host_buffer st) = Raise (NameError "buffer_type").
Proof.
  intros Hb Hne Hd Hnull. split_and!.
  - rewrite (map_unimplemented st b d); auto.
  - apply (get_pbo_unimplemented st b d); auto.
  - rewrite (unmap_bound st d Hd). reflexivity.
  - rewrite get_host_buffer_unbound_name. reflexivity.
Qed.

(** C7.  Whatever the buffer type and whatever the buffers hold,
    [get_host_buffer] raises [NameError] on the name [buffer_type]: it
    copies nothing from the device, returns no buffer and leaves the state
    as it was. *)
Theorem get_host_buffer_never_copies st :
  fst (get_host_buffer st) = Raise (NameError "buffer_type") /\
  after get_host_buffer st = st /\
  copies_to_host (after get_host_buffer st) = copies_to_host st.
Proof.
  unfold after. rewrite get_host_buffer_unbound_name. split_and!; reflexivity.
Qed.

(** *** Releasing the display buffer *)

Lemma delete_pbo_absent st :
  _pbo (self st) = None -> delete_pbo st = (Ok tt, st).
Proof.
  intros Hp. unfold delete_pbo. unfold_monad. cbn. rewrite Hp. reflexivity.
Qed.

Lemma delete_pbo_present st h :
  _pbo (self st) = Some h ->
  delete_pbo st =
    (Raise (NameError "glDeleteBuffers"),
     mkState (self st)
       (record (EvGlBindBuffer 0)
          (mkWorld (cuda_current (world st)) (host_brk (world st))
             (device_brk (world st)) (gl_next_name (world st)) 0
             (gl_store (world st)) (log (world st))))).
Proof.
  intros Hp. unfold delete_pbo, glBindBuffer. unfold_monad. cbn.
  rewrite Hp. reflexivity.
Qed.

(** C9.  When the display buffer handle is present, [delete_pbo] unbinds
    the array buffer and then raises [NameError] on the name
    [glDeleteBuffers]: the handle is neither destroyed nor set to absent,
    and a second call raises in the same way. *)
Theorem delete_pbo_present_raises st h :
  _pbo (self st) = Some h ->
  fst (delete_pbo st) = Raise (NameError "glDeleteBuffers") /\
  _pbo (self (after delete_pbo st)) = Some h /\
  handles_destroyed (after delete_pbo st) = handles_destroyed st /\
  fst (delete_pbo (after delete_pbo st)) = Raise (NameError "glDeleteBuffers").
Proof.
  intros Hp. unfold after. rewrite (delete_pbo_present st h Hp). cbn.
  split_and!; try done.
  erewrite delete_pbo_present by (cbn; eassumption). reflexivity.
Qed.

(** *** The device property *)

Lemma device_bound_blank : device_bound blank.
Proof. exact I. Qed.

Lemma _set_device_idx_accepted st v :
  0 <= v -> device_bound (self st) ->
  fst (_set_device_idx (Some v) st) = Ok tt /\
  _device_idx (self (after (_set_device_idx (Some v)) st)) = Some v /\
  _device (self (after (_set_device_idx (Some v)) st)) = Some (mkDevice v).
Proof.
  intros Hv Hb. destruct st as [c w]. unfold device_bound in Hb. cbn in Hb.
  unfold _set_device_idx. unfold_monad. cbn.
  destruct (Z.leb_spec 0 v) as [_ | ?]; [| lia]. cbn.
  case_bool_decide as Hcmp; cbn.
  - split_and!; reflexivity.
  - rewrite <- Hcmp in Hb. rewrite <- Hcmp. auto.
Qed.

(** *** Frame rules *)

Lemma unchanged_ret {A X} (f : State -> X) (a : A) : unchanged f (mret a).
Proof. intros st. reflexivity. Qed.

Lemma unchanged_raise {A X} (f : State -> X) e : unchanged f (@raise A e).
Proof. intros st. reflexivity. Qed.

Lemma unchanged_bind {A B X} (f : State -> X) (m : M A) (k : A -> M B) :
  unchanged f m -> (forall a, unchanged f (k a)) -> unchanged f (m ≫= k).
Proof.
  intros Hm Hk st. unfold mbind, M_bind.
  specialize (Hm st). destruct (m st) as [[a | e] st1]; cbn in *.
  - rewrite Hk. exact Hm.
  - exact Hm.
Qed.

Lemma unchanged_get_self {X} (f : State -> X) : unchanged f get_self.
Proof. intros st. reflexivity. Qed.

Lemma unchanged_get_world {X} (f : State -> X) : unchanged f get_world.
Proof. intros st. reflexivity. Qed.

Lemma unchanged_assert {X} (f : State -> X) b : unchanged f (assert b).
Proof. intros st. destruct b; reflexivity. Qed.

Lemma unchanged_attr {A X} (f : State -> X) (o : option A) :
  unchanged f (attr o).
Proof. intros st. destruct o; reflexivity. Qed.

Lemma unchanged_gl_arg {A X} (f : State -> X) (o : option A) :
  unchanged f (gl_arg o).
Proof. intros st. destruct o; reflexivity. Qed.

Lemma unchanged_load_global {X} (f : State -> X) name :
  unchanged f (load_global name).
Proof. intros st. unfold load_global. case_bool_decide; reflexivity. Qed.

Lemma unchanged_if {A X} (f : State -> X) (b : bool) (m1 m2 : M A) :
  unchanged f m1 -> unchanged f m2 -> unchanged f (if b then m1 else m2).
Proof. destruct b; auto. Qed.

Create HintDb frame.
#[local] Hint Resolve unchanged_ret unchanged_raise unchanged_get_self
  unchanged_get_world unchanged_assert unchanged_attr unchanged_gl_arg
  unchanged_load_global : frame.

(** A frame goal is split along the binds, branches and matches of the
    computation; the assignments and collaborator calls that remain are
    settled by running them on an arbitrary state. *)
Ltac frame_step :=
  match goal with
  | |- unchanged _ (_ ≫= _) => apply unchanged_bind; [| intros ?]
  | |- unchanged _ (if _ then _ else _) => apply unchanged_if
  | |- unchanged _ (match ?x with _ => _ end) => destruct x
  | |- unchanged _ (let _ := _ in _) => progress cbv zeta
  end.

Ltac frame :=
  repeat frame_step;
  try solve [ auto with frame | intros [? ?]; reflexivity ].

(** *** The display buffer handle outlives every call but the export *)

Lemma setters_keep_display_handle :
  (forall v, unchanged display_handle (_set_pixel_format v)) /\
  (forall v, unchanged display_handle (_set_buffer_type v)) /\
  (forall v, unchanged display_handle (_set_width v)) /\
  (forall v, unchanged display_handle (_set_height v)) /\
  (forall v, unchanged display_handle (_set_device_idx v)) /\
  (forall v, unchanged display_handle (_set_stream v)) /\
  (forall w h, unchanged display_handle (resize w h)).
Proof.
  split_and!; intros; unfold_methods; frame.
Qed.

Lemma _reallocate_buffers_keeps_display_handle :
  unchanged display_handle _reallocate_buffers.
Proof. unfold_methods; frame. Qed.

Lemma map_keeps_display_handle : unchanged display_handle map.
Proof. unfold_methods; frame. Qed.

Lemma unmap_keeps_display_handle : unchanged display_handle unmap.
Proof. unfold_methods; frame. Qed.

Lemma get_host_buffer_keeps_display_handle :
  unchanged display_handle get_host_buffer.
Proof. unfold_methods; frame. Qed.

Lemma get_pbo_present st h :
  _pbo (self st) = Some h ->
  display_handle (after get_pbo st) = display_handle st /\
  forall r st', get_pbo st = (Ok r, st') -> r = Some h.
Proof.
  destruct st as [[pf bt wd ht dv di sm hb db pbo] w]. cbn. intros ->.
  unfold display_handle, handles_created, after.
  run_method.
  destruct dv as [d |]; cbn; [| split; [reflexivity | discriminate]].
  destruct bt as [[] |]; cbn; try (split; [reflexivity | discriminate]).
  destruct hb as [host |]; cbn; [| split; [reflexivity | discriminate]].
  destruct db as [dev |]; cbn; [| split; [reflexivity | discriminate]].
  split; [reflexivity |]. intros r st' [= <- _]. reflexivity.
Qed.

Lemma get_pbo_absent st :
  _pbo (self st) = None ->
  display_handle (after get_pbo st) = display_handle st \/
  display_handle (after get_pbo st) =
    (Some (gl_next_name (world st)), S (handles_created st)).
Proof.
  destruct st as [[pf bt wd ht dv di sm hb db pbo] w]. cbn. intros ->.
  unfold display_handle, handles_created, after.
  run_method.
  destruct dv as [d |]; cbn; [| left; reflexivity].
  right.
  destruct bt as [[] |]; cbn; try reflexivity.
  destruct hb as [host |]; cbn; [| reflexivity].
  destruct db as [dev |]; cbn; reflexivity.
Qed.

Lemma get_pbo_twice st r st1 :
  get_pbo st = (Ok r, st1) ->
  exists h st2, r = Some h /\ get_pbo st1 = (Ok (Some h), st2).
Proof.
  destruct st as [[pf bt wd ht dv di sm hb db pbo] w].
  run_method.
  destruct dv as [d |]; cbn; [| discriminate].
  destruct bt as [[] |]; destruct pbo as [h |]; cbn; try discriminate;
    (destruct hb as [host |]; cbn; [| discriminate]);
    (destruct db as [dev |]; cbn; [| discriminate]);
    intros [= <- <-]; cbn; eauto.
Qed.

Lemma exec_display_handle c st :
  is_release c = false ->
  display_handle (exec c st) = display_handle st \/
  (c = Get_pbo /\ _pbo (self st) = None /\
   exists h, display_handle (exec c st) = (Some h, S (handles_created st))).
Proof.
  intros Hc.
  destruct setters_keep_display_handle as (Hpf & Hbt & Hw & Hh & Hd & Hs & Hr).
  destruct c; cbn in Hc; try discriminate; cbn [exec]; unfold after;
    try (left;
         first [ apply Hpf | apply Hbt | apply Hw | apply Hh | apply Hd
               | apply Hs | apply Hr | apply get_host_buffer_keeps_display_handle
               | apply map_keeps_display_handle
               | apply unmap_keeps_display_handle ]).
  destruct (_pbo (self st)) as [h |] eqn:Hp.
  - left. apply (get_pbo_present st h Hp).
  - destruct (get_pbo_absent st Hp) as [Hsame | Hnew]; [left; exact Hsame |].
    right. split_and!; [reflexivity | reflexivity | eauto].
Qed.

Lemma run_display_handle cs st :
  Forall (fun c => is_release c = false) cs ->
  display_handle (run cs st) = display_handle st \/
  (_pbo (self st) = None /\ In Get_pbo cs /\
   exists h, display_handle (run cs st) = (Some h, S (handles_created st))).
Proof.
  intros Hcs. revert st.
  induction Hcs as [| c cs Hc _ IH]; intros st; cbn [run]; [left; reflexivity |].
  destruct (exec_display_handle c st Hc) as [Hsame | (-> & Hnone & h & Hnew)].
  - destruct (IH (exec c st)) as [Hrun | (Hnone & Hin & h & Hrun)].
    + left. congruence.
    + right. unfold display_handle in Hsame. injection Hsame as Hp Hn.
      split_and!; [congruence | right; exact Hin |].
      exists h. rewrite Hrun, Hn. reflexivity.
  - right. split_and!; [exact Hnone | left; reflexivity |].
    destruct (IH (exec Get_pbo st)) as [Hrun | (Hnone' & _)].
    + exists h. congruence.
    + unfold display_handle in Hnew. congruence.
Qed.

(** An export that returns, returns what the handle slot then holds. *)
Lemma get_pbo_returns_stored st r st1 :
  get_pbo st = (Ok r, st1) -> r = _pbo (self st1).
Proof.
  destruct st as [[pf bt wd ht dv di sm hb db pbo] w].
  run_method.
  destruct dv as [d |]; cbn; [| discriminate].
  destruct bt as [[] |]; destruct pbo as [h |]; cbn; try discriminate;
    (destruct hb as [host |]; cbn; [| discriminate]);
    (destruct db as [dev |]; cbn; [| discriminate]);
    intros [= <- <-]; reflexivity.
Qed.

(** With a device to select and no handle, the export makes a handle and
    stores it, whatever becomes of the export after that. *)
Lemma get_pbo_creates st d :
  _device (self st) = Some d -> _pbo (self st) = None ->
  display_handle (after get_pbo st) =
    (Some (gl_next_name (world st)), S (handles_created st)).
Proof.
  destruct st as [[pf bt wd ht dv di sm hb db pbo] w]. cbn. intros -> ->.
  unfold display_handle, handles_created, after.
  run_method.
  destruct bt as [[] |]; cbn; try reflexivity.
  destruct hb as [host |]; cbn; [| reflexivity].
  destruct db as [dev |]; cbn; reflexivity.
Qed.

(** On a [CUDA_DEVICE] controller with both buffers the export returns: the
    handle held, or the one it makes. *)
Lemma get_pbo_materialized st d host dev :
  _buffer_type (self st) = Some CUDA_DEVICE -> _device (self st) = Some d ->
  _host_buffer (self st) = Some host -> _device_buffer (self st) = Some dev ->
  exists st1,
    get_pbo st
    = (Ok (Some (default (gl_next_name (world st)) (_pbo (self st)))), st1).
Proof.
  destruct st as [[pf bt wd ht dv di sm hb db pbo] w]. cbn.
  intros -> -> -> ->. run_method.
  destruct pbo as [h |]; cbn; eexists; reflexivity.
Qed.

(** C5.  The display buffer handle is made by the first export and kept.
    An export on a controller that has a device and no handle makes a
    handle and stores it; an export that returns, returns the handle the
    controller then holds, and on a [CUDA_DEVICE] controller with both
    buffers it does return, the handle held or else the one just made.
    Along any sequence of calls that does not release the display buffer: a
    handle that is present stays the same handle and no other is made; at
    most one handle is ever made, and none unless the sequence exports; and
    when an export returns a handle, the export that follows it returns the
    same handle. *)
Theorem display_handle_made_once_and_kept cs st :
  Forall (fun c => is_release c = false) cs ->
  (forall h, _pbo (self st) = Some h ->
     _pbo (self (run cs st)) = Some h /\
     handles_created (run cs st) = handles_created st) /\
  (handles_created (run cs st) <= S (handles_created st))%nat /\
  (~ In Get_pbo cs -> handles_created (run cs st) = handles_created st) /\
  (forall r st1, get_pbo (run cs st) = (Ok r, st1) ->
     r = _pbo (self st1) /\
     exists h st2, r = Some h /\ get_pbo st1 = (Ok (Some h), st2)) /\
  (forall st0 d, _device (self st0) = Some d -> _pbo (self st0) = None ->
     _pbo (self (after get_pbo st0)) = Some (gl_next_name (world st0)) /\
     handles_created (after get_pbo st0) = S (handles_created st0)) /\
  (forall st0 d host dev,
     _buffer_type (self st0) = Some CUDA_DEVICE ->
     _device (self st0) = Some d ->
     _host_buffer (self st0) = Some host ->
     _device_buffer (self st0) = Some dev ->
     exists st1,
       get_pbo st0
       = (Ok (Some (default (gl_next_name (world st0)) (_pbo (self st0)))),
          st1)).
Proof.
  intros Hcs.
  pose proof (run_display_handle cs st Hcs) as Hrun.
  unfold display_handle in Hrun. split_and!.
  - intros h Hp. destruct Hrun as [[= H1 H2] | (Hnone & _)]; [| congruence].
    split; congruence.
  - destruct Hrun as [[= _ H2] | (_ & _ & h & [= _ H2])]; lia.
  - intros Hnot. destruct Hrun as [[= _ H2] | (_ & Hin & _)]; [exact H2 | tauto].
  - intros r st1 Hget. split.
    + apply (get_pbo_returns_stored _ _ _ Hget).
    + apply (get_pbo_twice _ _ _ Hget).
  - intros st0 d Hd Hp.
    pose proof (get_pbo_creates st0 d Hd Hp) as Hnew.
    unfold display_handle in Hnew. injection Hnew as H1 H2. auto.
  - intros st0 d host dev. apply get_pbo_materialized.
Qed.

(** *** Validation in the setters *)

Lemma np_int32_exact z : is_int32 z -> np_int32 z = Some z.
Proof.
  unfold is_int32, int32_min, int32_max, np_int32, long_min, long_max,
    wrap_int32.
  intros Hz.
  destruct (Z.leb_spec (- 2 ^ 63) z); [| lia].
  destruct (Z.leb_spec z (2 ^ 63 - 1)); [| lia]. cbn [andb].
  rewrite Z.mod_small by lia. f_equal. lia.
Qed.

Lemma np_int32_range z v : np_int32 z = Some v -> is_int32 v.
Proof.
  unfold is_int32, int32_min, int32_max, np_int32, wrap_int32.
  destruct (_ && _); intros [= <-].
  pose proof (Z.mod_pos_bound (z + 2 ^ 31) (2 ^ 32)). lia.
Qed.

Lemma np_int32_long z :
  long_min <= z <= long_max -> np_int32 z = Some (wrap_int32 z).
Proof.
  unfold np_int32. intros Hz.
  destruct (Z.leb_spec long_min z); [| lia].
  destruct (Z.leb_spec z long_max); [| lia]. reflexivity.
Qed.

Lemma np_int32_overflow z : long_max < z -> np_int32 z = None.
Proof.
  unfold np_int32. intros Hz.
  destruct (Z.leb_spec z long_max); [lia |].
  rewrite andb_false_r. reflexivity.
Qed.

Lemma _set_width_rejects st v :
  v < 1 -> _set_width v st = (Raise AssertionError, st).
Proof.
  intros Hv. unfold _set_width. unfold_monad.
  destruct (Z.leb_spec 1 v); [lia | reflexivity].
Qed.

Lemma _set_height_rejects st v :
  v < 1 -> _set_height v st = (Raise AssertionError, st).
Proof.
  intros Hv. unfold _set_height. unfold_monad.
  destruct (Z.leb_spec 1 v); [lia | reflexivity].
Qed.

Lemma _set_pixel_format_rejects st tag :
  vtype_to_dtype tag = None ->
  _set_pixel_format (FmtStr tag) st = (Raise (InvalidFormat tag), st).
Proof.
  intros Htag. unfold _set_pixel_format. unfold_monad. rewrite Htag.
  reflexivity.
Qed.

(** *** Assigning the value a field holds *)

Lemma dtype_ne_false d slot :
  dtype_ne d slot = false <-> default default_dtype slot = d.
Proof.
  unfold dtype_ne. rewrite bool_decide_eq_false. split.
  - intros Hnn. destruct (decide (d = default default_dtype slot)); [done |].
    tauto.
  - intros <- Hne. apply Hne. reflexivity.
Qed.

Lemma dtype_ne_true d slot :
  dtype_ne d slot = true <-> default default_dtype slot <> d.
Proof.
  unfold dtype_ne. rewrite bool_decide_eq_true. split; intros Hne Heq; auto.
Qed.

(** The storage type is the one the buffers are made of already: the slot
    holds it, or still holds [None] and the type is the default one. *)
Lemma _set_pixel_format_equal st value d :
  resolves_to value d -> storage_dtype (self st) = d ->
  _set_pixel_format value st = (Ok tt, st).
Proof.
  intros Hres Hpf. apply dtype_ne_false in Hpf.
  unfold _set_pixel_format. unfold_monad.
  destruct value as [tag | d' | name]; cbn in Hres; [| subst d' | tauto].
  - rewrite Hres. cbn. rewrite Hpf. reflexivity.
  - cbn. rewrite Hpf. reflexivity.
Qed.

Lemma _set_pixel_format_same st value d :
  resolves_to value d -> _pixel_format (self st) = Some d ->
  _set_pixel_format value st = (Ok tt, st).
Proof.
  intros Hres Hpf. apply (_set_pixel_format_equal st value d Hres).
  unfold storage_dtype. rewrite Hpf. reflexivity.
Qed.

Lemma _set_buffer_type_same st b :
  _buffer_type (self st) = Some b -> _set_buffer_type b st = (Ok tt, st).
Proof.
  intros Hb. unfold _set_buffer_type. unfold_monad. cbn. rewrite Hb.
  rewrite bool_decide_eq_false_2 by auto. reflexivity.
Qed.

Lemma _set_width_same st w :
  _width (self st) = Some w -> is_int32 w ->
  after (_set_width w) st = st /\ (1 <= w -> _set_width w st = (Ok tt, st)).
Proof.
  intros Hw Hr. unfold after, _set_width. unfold_monad.
  destruct (Z.leb_spec 1 w); cbn.
  - rewrite (np_int32_exact w Hr). cbn. rewrite Hw.
    rewrite bool_decide_eq_false_2 by auto. auto.
  - split; [reflexivity | lia].
Qed.

Lemma _set_height_same st h :
  _height (self st) = Some h -> is_int32 h ->
  after (_set_height h) st = st /\ (1 <= h -> _set_height h st = (Ok tt, st)).
Proof.
  intros Hh Hr. unfold after, _set_height. unfold_monad.
  destruct (Z.leb_spec 1 h); cbn.
  - rewrite (np_int32_exact h Hr). cbn. rewrite Hh.
    rewrite bool_decide_eq_false_2 by auto. auto.
  - split; [reflexivity | lia].
Qed.

Lemma _set_device_idx_same st value :
  _device_idx (self st) = value ->
  after (_set_device_idx value) st = st /\
  (forall i, value = Some i -> 0 <= i -> _set_device_idx value st = (Ok tt, st)).
Proof.
  intros Hi. unfold after, _set_device_idx. unfold_monad.
  destruct value as [i |]; [| split; [reflexivity | discriminate]].
  destruct (Z.leb_spec 0 i); cbn.
  - rewrite Hi. rewrite bool_decide_eq_false_2 by auto.
    split; [reflexivity | intros; reflexivity].
  - split; [reflexivity | intros j [= <-]; lia].
Qed.

(** C4.  A call that assigns to a descriptor field the value the field
    holds leaves the whole state as it was: both buffers are the ones held
    before, nothing is allocated, and a [map] that follows behaves as it
    would have without the assignment. *)
Theorem assigning_current_value_is_noop c st :
  assigns_current c (self st) ->
  exec c st = st /\
  _host_buffer (self (exec c st)) = _host_buffer (self st) /\
  _device_buffer (self (exec c st)) = _device_buffer (self st) /\
  host_allocations (exec c st) = host_allocations st /\
  device_allocations (exec c st) = device_allocations st /\
  map (exec c st) = map st.
Proof.
  intros Hc.
  assert (exec c st = st) as ->; [| split_and!; reflexivity].
  destruct c; cbn in Hc; try tauto; cbn [exec].
  - destruct Hc as (d & Hres & Hpf). unfold after.
    rewrite (_set_pixel_format_same st value d); auto.
  - unfold after. rewrite _set_buffer_type_same; auto.
  - destruct Hc as [Hw Hr]. apply _set_width_same; auto.
  - destruct Hc as [Hh Hr]. apply _set_height_same; auto.
  - apply _set_device_idx_same; auto.
Qed.

(** *** Assigning a new value *)

Lemma _set_pixel_format_new st value d :
  resolves_to value d -> storage_dtype (self st) <> d ->
  _set_pixel_format value st =
    (Ok tt, mkState (invalidated (set_pixel_format_slot (Some d) (self st)))
              (world st)).
Proof.
  intros Hres Hpf. apply dtype_ne_true in Hpf.
  unfold _set_pixel_format. unfold_monad.
  destruct value as [tag | d' | name]; cbn in Hres; [| subst d' | tauto].
  - rewrite Hres. cbn. rewrite Hpf. reflexivity.
  - cbn. rewrite Hpf. reflexivity.
Qed.

Lemma storage_dtype_first_format d c :
  _pixel_format c = first_format d -> storage_dtype c = d.
Proof.
  unfold storage_dtype, first_format. intros ->.
  destruct (decide (d = default_dtype)); cbn; congruence.
Qed.

Lemma _set_pixel_format_first st value d :
  resolves_to value d -> _pixel_format (self st) = None ->
  _host_buffer (self st) = None -> _device_buffer (self st) = None ->
  _set_pixel_format value st =
    (Ok tt, mkState (set_pixel_format_slot (first_format d) (self st))
              (world st)).
Proof.
  destruct st as [[pf bt wd ht dv di sm hb db pbo] w0]. cbn.
  intros Hres -> -> ->. unfold first_format.
  destruct (decide (d = default_dtype)) as [Hd | Hd].
  - rewrite (_set_pixel_format_equal _ value d Hres); [reflexivity |].
    unfold storage_dtype. cbn. congruence.
  - rewrite (_set_pixel_format_new _ value d Hres); [reflexivity |].
    unfold storage_dtype. cbn. congruence.
Qed.

Lemma _set_buffer_type_new st b :
  _buffer_type (self st) <> Some b ->
  _set_buffer_type b st =
    (Ok tt, mkState (invalidated (set_buffer_type_slot (Some b) (self st)))
              (world st)).
Proof.
  intros Hb. unfold _set_buffer_type. unfold_monad. cbn.
  rewrite bool_decide_eq_true_2 by congruence. reflexivity.
Qed.

Lemma _set_width_new st v :
  1 <= v <= int32_max -> _width (self st) <> Some v ->
  _set_width v st =
    (Ok tt, mkState (invalidated (set_width_slot (Some v) (self st)))
              (world st)).
Proof.
  intros Hv Hw. unfold _set_width. unfold_monad.
  destruct (Z.leb_spec 1 v); [| lia]. cbn.
  rewrite np_int32_exact by (unfold is_int32, int32_min, int32_max in *; lia).
  cbn. rewrite bool_decide_eq_true_2 by congruence. reflexivity.
Qed.

Lemma _set_height_new st v :
  1 <= v <= int32_max -> _height (self st) <> Some v ->
  _set_height v st =
    (Ok tt, mkState (invalidated (set_height_slot (Some v) (self st)))
              (world st)).
Proof.
  intros Hv Hh. unfold _set_height. unfold_monad.
  destruct (Z.leb_spec 1 v); [| lia]. cbn.
  rewrite np_int32_exact by (unfold is_int32, int32_min, int32_max in *; lia).
  cbn. rewrite bool_decide_eq_true_2 by congruence. reflexivity.
Qed.

Lemma _set_device_idx_new st i :
  0 <= i -> _device_idx (self st) <> Some i ->
  _set_device_idx (Some i) st =
    (Ok tt,
     mkState (invalidated (set_device_slot (Some (mkDevice i))
                             (set_device_idx_slot (Some i) (self st))))
       (world st)).
Proof.
  intros Hi Hd. unfold _set_device_idx. unfold_monad.
  destruct (Z.leb_spec 0 i); [| lia]. cbn.
  rewrite bool_decide_eq_true_2 by congruence. reflexivity.
Qed.

(** *** Reallocation for [CUDA_DEVICE] *)

Lemma _reallocate_buffers_device st d w h :
  _buffer_type (self st) = Some CUDA_DEVICE ->
  storage_dtype (self st) = d ->
  _width (self st) = Some w -> _height (self st) = Some h ->
  0 <= w -> 0 <= h ->
  exists st',
    _reallocate_buffers st = (Ok tt, st') /\
    self st' =
      set_device_buffer_slot (Some (mkArray (device_brk (world st)) (w, h) d))
        (set_host_buffer_slot (Some (mkArray (host_brk (world st)) (w, h) d))
           (self st)) /\
    host_allocations st' = S (host_allocations st) /\
    device_allocations st' = S (device_allocations st) /\
    cuda_current (world st') = cuda_current (world st).
Proof.
  destruct st as [[pf bt wd ht dv di sm hb db pbo] w0].
  unfold storage_dtype. cbn.
  intros -> <- -> -> Hw Hh.
  unfold host_allocations, device_allocations.
  run_method.
  destruct pf as [d |]; cbn;
    (destruct (Z.ltb_spec w 0); [lia |]); (destruct (Z.ltb_spec h 0); [lia |]);
    cbn; destruct pbo as [name |]; cbn; eexists; split_and!; reflexivity.
Qed.

(** *** [map] on a configured controller of type [CUDA_DEVICE] *)

Lemma map_configured st d w h i :
  configured CUDA_DEVICE d w h i (self st) -> 0 <= w -> 0 <= h ->
  exists p dev host st',
    map st = (Ok p, st') /\
    _device_buffer (self st') = Some dev /\ data_ptr dev = p /\
    nbytes dev = w * h * itemsize d /\
    _host_buffer (self st') = Some host /\
    nbytes host = w * h * itemsize d /\
    cuda_current (world st') = i /\
    host_allocations st' =
      (host_allocations st + if needs_reallocation (self st) then 1 else 0)%nat /\
    device_allocations st' =
      (device_allocations st + if needs_reallocation (self st) then 1 else 0)%nat /\
    configured CUDA_DEVICE d w h i (self st').
Proof.
  destruct st as [[pf bt wd ht dv di sm hb db pbo] w0].
  unfold configured, needs_reallocation, storage_dtype. cbn.
  intros (-> & <- & -> & -> & -> & -> & Hhb & Hdb) Hw Hh.
  unfold host_allocations, device_allocations, nbytes.
  run_method.
  destruct pf as [d |];
  destruct hb as [[hp hs hd] |], db as [[dp ds dd] |]; cbn in *;
    try (destruct (Z.ltb_spec w 0); [lia |]);
    try (destruct (Z.ltb_spec h 0); [lia |]); cbn;
    try (destruct pbo as [name |]; cbn);
    repeat match goal with
           | H : _ /\ _ |- _ => destruct H as [-> ->]
           end;
    do 4 eexists; cbn; rewrite ?Nat.add_0_r, ?Nat.add_1_r;
    split_and!; reflexivity || (cbn; auto).
Qed.

(** *** Construction *)

Lemma resize_new st w h :
  1 <= w <= int32_max -> 1 <= h <= int32_max ->
  _width (self st) <> Some w -> _height (self st) <> Some h ->
  resize w h st =
    (Ok tt,
     mkState (invalidated (set_height_slot (Some h)
                (invalidated (set_width_slot (Some w) (self st)))))
       (world st)).
Proof.
  intros Hw Hh Hcw Hch. unfold resize.
  erewrite bind_ok by (apply _set_width_new; assumption).
  rewrite _set_height_new by (auto; cbn; exact Hch). reflexivity.
Qed.

Lemma __init___device value d w h i c0 w0 :
  resolves_to value d ->
  1 <= w <= int32_max -> 1 <= h <= int32_max -> 0 <= i ->
  exists st,
    __init__ CUDA_DEVICE value w h (Some i) (mkState c0 w0) = (Ok tt, st) /\
    configured CUDA_DEVICE d w h i (self st) /\
    _host_buffer (self st) = Some (mkArray (host_brk w0) (w, h) d) /\
    _device_buffer (self st) = Some (mkArray (device_brk w0) (w, h) d) /\
    _pbo (self st) = None /\ _stream (self st) = None.
Proof.
  intros Hres Hw Hh Hi.
  destruct (_reallocate_buffers_device
              (mkState (mkSelf (first_format d) (Some CUDA_DEVICE) (Some w)
                          (Some h) (Some (mkDevice i)) (Some i)
                          None None None None) w0)
              d w h) as (st & Hre & Hself & _);
    try reflexivity; try lia; [apply storage_dtype_first_format; reflexivity |].
  exists st. split.
  - unfold __init__.
    erewrite bind_ok by reflexivity.
    erewrite bind_ok by (apply _set_device_idx_new; [lia | discriminate]).
    erewrite bind_ok
      by (apply _set_pixel_format_first; [eassumption | reflexivity ..]).
    erewrite bind_ok by (apply _set_buffer_type_new; discriminate).
    erewrite bind_ok by (apply resize_new; auto; discriminate).
    exact Hre.
  - rewrite Hself. cbn. unfold configured. cbn -[storage_dtype].
    split_and!; auto.
    apply storage_dtype_first_format. reflexivity.
Qed.

(** Any other buffer type stops the constructor at its reallocation. *)
Lemma __init___unimplemented b value d w h i c0 w0 :
  b <> CUDA_DEVICE -> resolves_to value d ->
  1 <= w <= int32_max -> 1 <= h <= int32_max -> 0 <= i ->
  fst (__init__ b value w h (Some i) (mkState c0 w0)) =
    Raise (NotImplementedError (not_implemented_msg (VMember b))).
Proof.
  intros Hb Hres Hw Hh Hi. unfold __init__.
  erewrite bind_ok by reflexivity.
  erewrite bind_ok by (apply _set_device_idx_new; [lia | discriminate]).
  erewrite bind_ok
    by (apply _set_pixel_format_first; [eassumption | reflexivity ..]).
  erewrite bind_ok by (apply _set_buffer_type_new; discriminate).
  erewrite bind_ok by (apply resize_new; auto; discriminate).
  rewrite (_reallocate_buffers_unimplemented _ b); auto.
Qed.

Lemma __init___rejects_width b value d w h i st :
  resolves_to value d -> 0 <= i -> w < 1 ->
  fst (__init__ b value w h (Some i) st) = Raise AssertionError /\
  world (after (__init__ b value w h (Some i)) st) = world st.
Proof.
  intros Hres Hi Hw.
  assert (exists c, __init__ b value w h (Some i) st
                    = (Raise AssertionError, mkState c (world st)))
    as [c Hinit]; [| unfold after; rewrite Hinit; split; reflexivity].
  eexists. unfold __init__.
  erewrite bind_ok by reflexivity.
  erewrite bind_ok by (apply _set_device_idx_new; [lia | discriminate]).
  erewrite bind_ok
    by (apply _set_pixel_format_first; [eassumption | reflexivity ..]).
  erewrite bind_ok by (apply _set_buffer_type_new; discriminate).
  apply bind_raise. unfold resize.
  apply bind_raise, _set_width_rejects, Hw.
Qed.

Lemma __init___rejects_height b value d w h i st :
  resolves_to value d -> 0 <= i -> 1 <= w <= int32_max -> h < 1 ->
  fst (__init__ b value w h (Some i) st) = Raise AssertionError /\
  world (after (__init__ b value w h (Some i)) st) = world st.
Proof.
  intros Hres Hi Hw Hh.
  assert (exists c, __init__ b value w h (Some i) st
                    = (Raise AssertionError, mkState c (world st)))
    as [c Hinit]; [| unfold after; rewrite Hinit; split; reflexivity].
  eexists. unfold __init__.
  erewrite bind_ok by reflexivity.
  erewrite bind_ok by (apply _set_device_idx_new; [lia | discriminate]).
  erewrite bind_ok
    by (apply _set_pixel_format_first; [eassumption | reflexivity ..]).
  erewrite bind_ok by (apply _set_buffer_type_new; discriminate).
  apply bind_raise. unfold resize.
  erewrite bind_ok by (apply _set_width_new; [assumption | discriminate]).
  apply _set_height_rejects, Hh.
Qed.

Lemma __init___rejects_format b tag w h i st :
  vtype_to_dtype tag = None -> 0 <= i ->
  fst (__init__ b (FmtStr tag) w h (Some i) st) = Raise (InvalidFormat tag) /\
  world (after (__init__ b (FmtStr tag) w h (Some i)) st) = world st.
Proof.
  intros Htag Hi.
  assert (exists c, __init__ b (FmtStr tag) w h (Some i) st
                    = (Raise (InvalidFormat tag), mkState c (world st)))
    as [c Hinit]; [| unfold after; rewrite Hinit; split; reflexivity].
  eexists. unfold __init__.
  erewrite bind_ok by reflexivity.
  erewrite bind_ok by (apply _set_device_idx_new; [lia | discriminate]).
  apply bind_raise, _set_pixel_format_rejects, Htag.
Qed.

(** C8.  Assigning a width or a height below 1 raises the error of the
    setter's assertion, and assigning a string tag the resolver does not
    know raises the resolver's [InvalidFormat]; in each case the setter
    raises at once and the state, the log of allocations included, is as it
    was.  The constructor, which goes through the same setters, raises the
    same errors before it allocates anything. *)
Theorem invalid_dimension_and_format_raise st :
  (forall v, v < 1 -> _set_width v st = (Raise AssertionError, st)) /\
  (forall v, v < 1 -> _set_height v st = (Raise AssertionError, st)) /\
  (forall tag, vtype_to_dtype tag = None ->
     _set_pixel_format (FmtStr tag) st = (Raise (InvalidFormat tag), st)) /\
  (forall b value d w h i, resolves_to value d -> 0 <= i ->
     w < 1 \/ (1 <= w <= int32_max /\ h < 1) ->
     fst (__init__ b value w h (Some i) st) = Raise AssertionError /\
     world (after (__init__ b value w h (Some i)) st) = world st) /\
  (forall b tag w h i, vtype_to_dtype tag = None -> 0 <= i ->
     fst (__init__ b (FmtStr tag) w h (Some i) st) = Raise (InvalidFormat tag) /\
     world (after (__init__ b (FmtStr tag) w h (Some i)) st) = world st).
Proof.
  split_and!.
  - intros v. apply _set_width_rejects.
  - intros v. apply _set_height_rejects.
  - intros tag. apply _set_pixel_format_rejects.
  - intros b value d w h i Hres Hi [Hw | [Hw Hh]].
    + apply (__init___rejects_width b value d); assumption.
    + apply (__init___rejects_height b value d); assumption.
  - intros b tag w h i. apply __init___rejects_format.
Qed.

(** C2.  Take a resolvable format, a width and a height from 1 to 2^31 - 1
    and a device index from 0.  For the buffer type [CUDA_DEVICE] the
    constructor returns a configured controller with both buffers
    allocated (configured: the slots hold the buffer type, the size and the
    device, and the storage type is the one of the format, which the
    [pixel_format] slot holds or, for NumPy's default storage type, leaves
    to its [None]); and on every controller so configured, freshly made or
    invalidated since, [map] selects the device of the controller,
    reallocates both buffers exactly when one of them is null, and returns
    the address of the device buffer, which holds
    [width * height * itemsize] bytes, as does the host buffer.  For
    [GL_INTEROP], [ZERO_COPY] and [CUDA_P2P] the constructor raises
    [NotImplementedError], and so does [map] on a controller so configured
    when it takes its reallocation path, allocating nothing. *)
Theorem map_after_configure value d w h i c0 w0 :
  resolves_to value d ->
  1 <= w <= int32_max -> 1 <= h <= int32_max -> 0 <= i ->
  (exists st,
     __init__ CUDA_DEVICE value w h (Some i) (mkState c0 w0) = (Ok tt, st) /\
     configured CUDA_DEVICE d w h i (self st) /\
     needs_reallocation (self st) = false) /\
  (forall st, configured CUDA_DEVICE d w h i (self st) ->
     exists p dev host st',
       map st = (Ok p, st') /\
       _device_buffer (self st') = Some dev /\ data_ptr dev = p /\
       nbytes dev = w * h * itemsize d /\
       _host_buffer (self st') = Some host /\
       nbytes host = w * h * itemsize d /\
       cuda_current (world st') = i /\
       host_allocations st' =
         (host_allocations st
          + if needs_reallocation (self st) then 1 else 0)%nat /\
       device_allocations st' =
         (device_allocations st
          + if needs_reallocation (self st) then 1 else 0)%nat) /\
  (forall b, b <> CUDA_DEVICE ->
     fst (__init__ b value w h (Some i) (mkState c0 w0))
     = Raise (NotImplementedError (not_implemented_msg (VMember b)))) /\
  (forall b st, b <> CUDA_DEVICE ->
     configured b d w h i (self st) ->
     needs_reallocation (self st) = true ->
     fst (map st)
     = Raise (NotImplementedError (not_implemented_msg (VMember b))) /\
     host_allocations (after map st) = host_allocations st /\
     device_allocations (after map st) = device_allocations st).
Proof.
  intros Hres Hw Hh Hi. split_and!.
  - destruct (__init___device value d w h i c0 w0)
      as (st & Hinit & Hconf & Hhb & Hdb & _); auto.
    exists st. split_and!; auto.
    unfold needs_reallocation. rewrite Hhb, Hdb. reflexivity.
  - intros st Hconf.
    destruct (map_configured st d w h i Hconf) as
      (p & dev & host & st' & Hm & H1 & H2 & H3 & H4 & H5 & H6 & H7 & H8 & _);
      [lia | lia |].
    exists p, dev, host, st'. split_and!; assumption.
  - intros b Hb. apply (__init___unimplemented b value d); assumption.
  - intros b st Hb (Hbt & _ & _ & _ & _ & Hdev & _) Hneed.
    assert (_host_buffer (self st) = None \/ _device_buffer (self st) = None)
      as Hnull.
    { unfold needs_reallocation in Hneed.
      apply orb_true_iff in Hneed as [Hn | Hn];
        apply bool_decide_eq_true in Hn; auto. }
    unfold after.
    rewrite (map_unimplemented st b (mkDevice i) Hbt Hb Hdev Hnull).
    split_and!; reflexivity.
Qed.

(** *** The [map] that follows an invalidation *)

Lemma map_after_invalidation st b d w h i :
  configured b d w h i (self st) -> 0 <= w -> 0 <= h ->
  _host_buffer (self st) = None -> _device_buffer (self st) = None ->
  match b with
  | CUDA_DEVICE =>
      exists p st',
        map st = (Ok p, st') /\
        host_allocations st' = S (host_allocations st) /\
        device_allocations st' = S (device_allocations st) /\
        is_Some (_host_buffer (self st')) /\
        is_Some (_device_buffer (self st'))
  | _ =>
      exists st',
        map st =
          (Raise (NotImplementedError (not_implemented_msg (VMember b))), st') /\
        host_allocations st' = host_allocations st /\
        device_allocations st' = device_allocations st /\
        _host_buffer (self st') = None /\
        _device_buffer (self st') = None
  end.
Proof.
  intros Hconf Hw Hh Hhb Hdb.
  assert (b = CUDA_DEVICE \/ b <> CUDA_DEVICE) as [-> | Hb]
    by (destruct b; auto; right; discriminate).
  - destruct (map_configured st d w h i Hconf Hw Hh) as
      (p & dev & host & st' & Hm & Hd' & _ & _ & Hh' & _ & _ & Hna & Hnd & _).
    unfold needs_reallocation in Hna, Hnd. rewrite Hhb in Hna, Hnd.
    cbn in Hna, Hnd. rewrite Nat.add_1_r in Hna, Hnd.
    exists p, st'. rewrite Hd', Hh'. split_and!; eauto.
  - destruct Hconf as (Hbt & _ & _ & _ & _ & Hdev & _).
    pose proof (map_unimplemented st b (mkDevice i) Hbt Hb Hdev (or_introl Hhb))
      as Hm.
    destruct b; try congruence;
      (eexists; split; [exact Hm |]; cbn; split_and!; auto).
Qed.

(** C3.  On a configured controller whose stored width and height are not
    negative, assigning to [pixel_format], [buffer_type], [width], [height]
    or [device_idx] a valid value that differs from the current one, as the
    [!=] of the setter compares them (a [pixel_format] slot still [None]
    compares as NumPy's default storage type), nulls both buffers at once
    and allocates nothing.  The [map] that follows reallocates both
    buffers, once each, when the buffer type then is [CUDA_DEVICE]; for any
    other buffer type it raises [NotImplementedError], allocates nothing
    and leaves both buffers null. *)
Theorem new_value_invalidates_storage c st b d w h i :
  configured b d w h i (self st) -> 0 <= w -> 0 <= h ->
  assigns_new c (self st) ->
  let st1 := exec c st in
  _host_buffer (self st1) = None /\
  _device_buffer (self st1) = None /\
  world st1 = world st /\
  match _buffer_type (self st1) with
  | Some CUDA_DEVICE =>
      exists p st2,
        map st1 = (Ok p, st2) /\
        host_allocations st2 = S (host_allocations st1) /\
        device_allocations st2 = S (device_allocations st1) /\
        is_Some (_host_buffer (self st2)) /\
        is_Some (_device_buffer (self st2))
  | Some b' =>
      exists st2,
        map st1 =
          (Raise (NotImplementedError (not_implemented_msg (VMember b'))), st2) /\
        host_allocations st2 = host_allocations st1 /\
        device_allocations st2 = device_allocations st1 /\
        _host_buffer (self st2) = None /\
        _device_buffer (self st2) = None
  | None => False
  end.
Proof.
  intros Hconf Hw Hh Hnew st1. subst st1.
  pose proof Hconf as (Hbt & Hpf & Hwd & Hht & Hdi & Hdv & _ & _).
  unfold storage_dtype in Hpf.
  assert (forall st1 b' d' w' h' i',
            configured b' d' w' h' i' (self st1) -> 0 <= w' -> 0 <= h' ->
            _host_buffer (self st1) = None ->
            _device_buffer (self st1) = None ->
            _buffer_type (self st1) = Some b' ->
            match _buffer_type (self st1) with
            | Some CUDA_DEVICE =>
                exists p st2,
                  map st1 = (Ok p, st2) /\
                  host_allocations st2 = S (host_allocations st1) /\
                  device_allocations st2 = S (device_allocations st1) /\
                  is_Some (_host_buffer (self st2)) /\
                  is_Some (_device_buffer (self st2))
            | Some b' =>
                exists st2,
                  map st1 =
                    (Raise (NotImplementedError
                              (not_implemented_msg (VMember b'))), st2) /\
                  host_allocations st2 = host_allocations st1 /\
                  device_allocations st2 = device_allocations st1 /\
                  _host_buffer (self st2) = None /\
                  _device_buffer (self st2) = None
            | None => False
            end) as Hnext.
  { intros st1 b' d' w' h' i' Hc' Hw' Hh' Hhb Hdb ->.
    pose proof (map_after_invalidation st1 b' d' w' h' i' Hc' Hw' Hh' Hhb Hdb).
    destruct b'; assumption. }
  destruct c; cbn in Hnew; try tauto; cbn [exec]; unfold after.
  - destruct Hnew as (d' & Hres & Hne). apply dtype_ne_true in Hne.
    rewrite (_set_pixel_format_new st value d' Hres Hne). cbn [snd].
    split_and!; try reflexivity.
    apply (Hnext _ b d' w h i); cbn; unfold configured; cbn; auto 10.
  - rewrite (_set_buffer_type_new st value Hnew). cbn [snd].
    split_and!; try reflexivity.
    apply (Hnext _ value d w h i); cbn; unfold configured; cbn; auto 10.
  - destruct Hnew as (Hv & Hne).
    rewrite (_set_width_new st value Hv Hne). cbn [snd].
    split_and!; try reflexivity.
    apply (Hnext _ b d value h i); cbn; unfold configured; cbn; auto 10; lia.
  - destruct Hnew as (Hv & Hne).
    rewrite (_set_height_new st value Hv Hne). cbn [snd].
    split_and!; try reflexivity.
    apply (Hnext _ b d w value i); cbn; unfold configured; cbn; auto 10; lia.
  - destruct Hnew as (i' & -> & Hi & Hne).
    rewrite (_set_device_idx_new st i' Hi Hne). cbn [snd].
    split_and!; try reflexivity.
    apply (Hnext _ b d w h i'); cbn; unfold configured; cbn; auto 10.
Qed.

(** *** The device handle follows the device index *)

Lemma exec_device_bound c st :
  device_bound (self st) -> device_bound (self (exec c st)).
Proof.
  intros Hb.
  assert (forall A (m : M A), unchanged device_slots m ->
            device_bound (self (after m st))) as Hkeep.
  { intros A m Hm. specialize (Hm st). unfold device_slots in Hm.
    injection Hm as Hi Hd. unfold device_bound, after in *.
    rewrite Hi, Hd. exact Hb. }
  destruct c; cbn [exec];
    try solve [ apply Hkeep;
                unfold get_pbo, delete_pbo, glGenBuffers, glBindBuffer,
                  glBufferData, glDeleteBuffers;
                unfold_methods; frame ].
  destruct value as [v |]; [| exact Hb].
  destruct (Z.le_gt_cases 0 v) as [Hv | Hv].
  - destruct (_set_device_idx_accepted st v Hv Hb) as (_ & Hi & Hd).
    unfold device_bound. rewrite Hi. exact Hd.
  - unfold after, _set_device_idx. unfold_monad.
    destruct (Z.leb_spec 0 v); [lia | exact Hb].
Qed.

Lemma run_device_bound cs st :
  device_bound (self st) -> device_bound (self (run cs st)).
Proof.
  revert st. induction cs as [| c cs IH]; intros st Hb; cbn [run]; [exact Hb |].
  apply IH, exec_device_bound, Hb.
Qed.

(** The constructor leaves the device slots in agreement whenever it gets
    as far as assigning them. *)
Lemma __init___device_bound b value w h i st :
  device_bound (self (after (__init__ b value w h i) st)).
Proof.
  unfold after, __init__.
  unfold mbind at 1, M_bind at 1, modify_self at 1. cbn [self world].
  set (st0 := mkState blank (world st)).
  assert (device_bound (self st0)) as Hb0 by exact I.
  pose proof (exec_device_bound (Set_device_idx i) st0 Hb0) as Hb1.
  cbn [exec] in Hb1. unfold after in Hb1.
  unfold mbind at 1, M_bind at 1.
  destruct (_set_device_idx i st0) as [[[] | e] st1]; cbn [snd] in *;
    [| exact Hb1].
  assert (forall A (m : M A) st', unchanged device_slots m ->
            device_bound (self st') -> device_bound (self (snd (m st'))))
    as Hkeep.
  { intros A m st' Hm Hb'. specialize (Hm st'). unfold device_slots in Hm.
    injection Hm as Hi Hd. unfold device_bound in *. rewrite Hi, Hd.
    exact Hb'. }
  apply Hkeep; [| exact Hb1].
  unfold_methods; frame.
Qed.

(** C10.  Start from a controller whose device slots agree (a fresh
    instance, or what the constructor leaves) and make any sequence of
    calls.  If [device_idx] has been assigned, so that the index slot holds
    some [i], then reading the property yields what [_device] holds, which
    is the device handle acquired for [i], and never an integer. *)
Theorem device_idx_reads_device_handle cs st i :
  device_bound (self st) ->
  _device_idx (self (run cs st)) = Some i ->
  fst (_get_device_idx (run cs st))
  = Ok (of_slot VDevice (_device (self (run cs st)))) /\
  fst (_get_device_idx (run cs st)) = Ok (VDevice (mkDevice i)) /\
  (forall n, fst (_get_device_idx (run cs st)) <> Ok (VInt n)) /\
  (forall n, fst (_get_device_idx (run cs st)) <> Ok (VInt32 n)).
Proof.
  intros Hb Hi.
  pose proof (run_device_bound cs st Hb) as Hrun.
  unfold device_bound in Hrun. rewrite Hi in Hrun.
  assert (fst (_get_device_idx (run cs st)) = Ok (VDevice (mkDevice i)))
    as Hget.
  { unfold _get_device_idx. unfold_monad. cbn. rewrite Hrun. reflexivity. }
  split_and!.
  - rewrite Hrun. exact Hget.
  - exact Hget.
  - intros n. rewrite Hget. discriminate.
  - intros n. rewrite Hget. discriminate.
Qed.

(** *** Every call keeps a configured controller configured *)

Lemma is_configured_storage_slots st st' :
  storage_slots st' = storage_slots st ->
  is_configured (self st) -> is_configured (self st').
Proof.
  unfold storage_slots, is_configured, configured, storage_dtype.
  intros [= -> -> -> -> -> -> -> ->]. auto.
Qed.

Lemma setters_keep_configured st :
  is_configured (self st) ->
  (forall v, is_configured (self (after (_set_pixel_format v) st))) /\
  (forall v, is_configured (self (after (_set_buffer_type v) st))) /\
  (forall v, is_configured (self (after (_set_width v) st))) /\
  (forall v, is_configured (self (after (_set_height v) st))) /\
  (forall v, is_configured (self (after (_set_device_idx v) st))).
Proof.
  destruct st as [[pf bt wd ht dv di sm hb db pbo] w0].
  intros (b & d & w & h & i & Hc). unfold configured in Hc. cbn in Hc.
  destruct Hc as (-> & <- & -> & -> & -> & -> & Hhb & Hdb).
  split_and!; intros v; unfold after.
  - unfold _set_pixel_format, dtype_ne. unfold_monad.
    destruct v as [tag | d' | name]; cbn;
      [destruct (vtype_to_dtype tag) as [d' |]; cbn | |];
      try case_bool_decide; cbn; configured_now.
  - unfold _set_buffer_type. unfold_monad. cbn.
    case_bool_decide; cbn; configured_now.
  - unfold _set_width. unfold_monad.
    destruct (1 <=? v); cbn;
      [destruct (np_int32 v); cbn; [case_bool_decide; cbn |] |];
      configured_now.
  - unfold _set_height. unfold_monad.
    destruct (1 <=? v); cbn;
      [destruct (np_int32 v); cbn; [case_bool_decide; cbn |] |];
      configured_now.
  - unfold _set_device_idx. unfold_monad.
    destruct v as [v |]; cbn; [destruct (0 <=? v); cbn |];
      try case_bool_decide; cbn; configured_now.
Qed.

Lemma map_keeps_configured st :
  is_configured (self st) -> is_configured (self (after map st)).
Proof.
  destruct st as [[pf bt wd ht dv di sm hb db pbo] w0].
  intros (b & d & w & h & i & Hc). unfold configured in Hc. cbn in Hc.
  destruct Hc as (-> & <- & -> & -> & -> & -> & Hhb & Hdb).
  unfold after. run_method.
  destruct hb as [host |], db as [dev |]; cbn; try configured_now;
    destruct b; cbn; try configured_now;
    destruct pf as [d |]; cbn;
    destruct (w <? 0), (h <? 0); cbn; try configured_now;
    destruct pbo as [name |]; cbn; configured_now.
Qed.

Lemma exec_configured c st :
  is_configured (self st) -> is_configured (self (exec c st)).
Proof.
  intros Hc.
  destruct (setters_keep_configured st Hc) as (Hpf & Hbt & Hw & Hh & Hd).
  assert (forall A (m : M A), unchanged storage_slots m ->
            is_configured (self (after m st))) as Hkeep.
  { intros A m Hm.
    apply (is_configured_storage_slots st); [apply Hm | exact Hc]. }
  destruct c; cbn [exec]; auto using map_keeps_configured;
    try solve [ apply Hkeep;
                unfold get_pbo, delete_pbo, glGenBuffers, glBindBuffer,
                  glBufferData, glDeleteBuffers;
                unfold_methods; frame ].
  unfold after, resize. unfold mbind, M_bind.
  specialize (Hw width). unfold after in Hw.
  destruct (_set_width width st) as [[[] | e] st1]; cbn [snd] in *;
    [| exact Hw].
  destruct (setters_keep_configured st1 Hw) as (_ & _ & _ & Hh1 & _).
  apply Hh1.
Qed.

(** A controller the constructor returned stays configured, for some
    descriptor, whatever is called on it. *)
Lemma run_configured cs st :
  is_configured (self st) -> is_configured (self (run cs st)).
Proof.
  revert st. induction cs as [| c cs IH]; intros st Hc; cbn [run]; [exact Hc |].
  apply IH, exec_configured, Hc.
Qed.

(** ** Further properties of the class *)

(** *** The stream *)

Lemma exec_keeps_stream c st :
  _stream (self (exec c st)) = _stream (self st).
Proof.
  assert (forall A (m : M A),
            unchanged (fun st => _stream (self st)) m ->
            _stream (self (after m st)) = _stream (self st)) as Hkeep
    by (intros A m Hm; apply Hm).
  destruct c; cbn [exec];
    try solve [ apply Hkeep;
                unfold get_pbo, delete_pbo, glGenBuffers, glBindBuffer,
                  glBufferData, glDeleteBuffers;
                unfold_methods; frame ].
  unfold after. rewrite _set_stream_raises. reflexivity.
Qed.

(** X1.  The constructor leaves [_stream] at [None], and no call assigns it: the
    one method that would, [_set_stream], raises before it does.  So the
    stream of a controller is [None] whatever has been called on it. *)
Theorem stream_is_never_assigned b value w h i cs st :
  _stream (self (run cs (after (__init__ b value w h i) st))) = None.
Proof.
  assert (_stream (self (after (__init__ b value w h i) st)) = None) as Hinit.
  { unfold after, __init__.
    unfold mbind at 1, M_bind at 1, modify_self at 1. cbn [self world].
    set (st0 := mkState blank (world st)).
    change None with (_stream (self st0)).
    assert (unchanged (fun st => _stream (self st))
              (_set_device_idx i;; _set_pixel_format value;;
               _set_buffer_type b;; resize w h;; _reallocate_buffers)) as Hm
      by (unfold_methods; frame).
    apply Hm. }
  revert Hinit. generalize (after (__init__ b value w h i) st). clear st.
  induction cs as [| c cs IH]; intros st Hst; cbn [run]; [exact Hst |].
  apply IH. rewrite exec_keeps_stream. exact Hst.
Qed.

(** *** Assignments are lazy *)

(** X2.  No assignment to a property, accepted or rejected, and no [resize]
    calls into NumPy, CuPy or OpenGL: the runtime, its log included, is as
    it was. *)
Theorem assignments_leave_the_runtime c st :
  is_assignment c = true -> world (exec c st) = world st.
Proof.
  assert (forall A (m : M A), unchanged world m ->
            world (after m st) = world st) as Hkeep
    by (intros A m Hm; apply Hm).
  destruct c; cbn; intros Hc; try discriminate; cbn [exec];
    solve [ apply Hkeep; unfold_methods; frame ].
Qed.

(** *** Which methods select the device *)


(** *** Releasing an absent handle *)

(** X4.  Without a display buffer handle, [delete_pbo] returns and changes
    nothing, however often it is called. *)
Theorem delete_pbo_absent_is_noop n st :
  _pbo (self st) = None ->
  delete_pbo st = (Ok tt, st) /\
  run (replicate n Delete_pbo) st = st.
Proof.
  intros Hp. split; [apply delete_pbo_absent, Hp |].
  induction n as [| n IH]; cbn [replicate run exec]; [reflexivity |].
  unfold after. rewrite (delete_pbo_absent st Hp). exact IH.
Qed.

(** *** [resize] is two assignments *)

(** X5.  [resize] assigns the width and then the height.  When the width is
    accepted and new but the height is rejected, [resize] raises with the
    width already stored and both buffers already null: the height and the
    runtime are as they were. *)
Theorem resize_is_not_atomic w h st :
  1 <= w <= int32_max -> _width (self st) <> Some w -> h < 1 ->
  fst (resize w h st) = Raise AssertionError /\
  _width (self (after (resize w h) st)) = Some w /\
  _height (self (after (resize w h) st)) = _height (self st) /\
  _host_buffer (self (after (resize w h) st)) = None /\
  _device_buffer (self (after (resize w h) st)) = None /\
  world (after (resize w h) st) = world st.
Proof.
  intros Hw Hne Hh. unfold after, resize.
  erewrite bind_ok by (apply _set_width_new; assumption).
  rewrite _set_height_rejects by exact Hh.
  split_and!; reflexivity.
Qed.

(** X6.  [resize] to the size the controller has returns and changes nothing. *)
Theorem resize_to_current_size_is_noop w h st :
  _width (self st) = Some w -> _height (self st) = Some h ->
  1 <= w <= int32_max -> 1 <= h <= int32_max ->
  resize w h st = (Ok tt, st).
Proof.
  intros Hcw Hch Hw Hh. unfold resize.
  assert (is_int32 w /\ is_int32 h) as [Hrw Hrh]
    by (unfold is_int32, int32_min, int32_max in *; lia).
  destruct (_set_width_same st w Hcw Hrw) as [_ Hsw].
  destruct (_set_height_same st h Hch Hrh) as [_ Hsh].
  erewrite bind_ok by (apply Hsw; lia). apply Hsh. lia.
Qed.

(** *** What the constructor does to the runtime *)

Lemma _reallocate_buffers_fresh st d w h :
  _buffer_type (self st) = Some CUDA_DEVICE ->
  storage_dtype (self st) = d ->
  _width (self st) = Some w -> _height (self st) = Some h ->
  _pbo (self st) = None ->
  0 <= w -> 0 <= h ->
  exists st',
    _reallocate_buffers st = (Ok tt, st') /\
    log (world st')
    = EvCpEmpty (mkArray (device_brk (world st)) (w, h) d)
      :: EvNpEmpty (mkArray (host_brk (world st)) (w, h) d)
      :: log (world st) /\
    cuda_current (world st') = cuda_current (world st) /\
    gl_store (world st') = gl_store (world st) /\
    gl_next_name (world st') = gl_next_name (world st).
Proof.
  destruct st as [[pf bt wd ht dv di sm hb db pbo] w0].
  unfold storage_dtype. cbn.
  intros -> <- -> -> -> Hw Hh.
  run_method.
  destruct pf as [d |]; cbn;
    (destruct (Z.ltb_spec w 0); [lia |]); (destruct (Z.ltb_spec h 0); [lia |]);
    cbn; eexists; split_and!; reflexivity.
Qed.

(** X7.  For [CUDA_DEVICE] and valid arguments the constructor makes exactly two
    calls into the collaborators, [np.empty] and then [cp.empty] for the
    shape [(width, height)], and none to select the device of the
    controller: the device current before the call is still current, and the
    device buffer is allocated under it. *)
Theorem constructor_allocates_without_selecting_device value d w h i c0 w0 :
  resolves_to value d ->
  1 <= w <= int32_max -> 1 <= h <= int32_max -> 0 <= i ->
  exists st,
    __init__ CUDA_DEVICE value w h (Some i) (mkState c0 w0) = (Ok tt, st) /\
    log (world st)
    = EvCpEmpty (mkArray (device_brk w0) (w, h) d)
      :: EvNpEmpty (mkArray (host_brk w0) (w, h) d) :: log w0 /\
    cuda_current (world st) = cuda_current w0 /\
    gl_store (world st) = gl_store w0 /\
    gl_next_name (world st) = gl_next_name w0.
Proof.
  intros Hres Hw Hh Hi.
  destruct (_reallocate_buffers_fresh
              (mkState (mkSelf (first_format d) (Some CUDA_DEVICE) (Some w)
                          (Some h) (Some (mkDevice i)) (Some i)
                          None None None None) w0)
              d w h) as (st & Hre & Hlog & Hcur & Hstore & Hnext);
    try reflexivity; try lia; [apply storage_dtype_first_format; reflexivity |].
  exists st. split; [| auto].
  unfold __init__.
  erewrite bind_ok by reflexivity.
  erewrite bind_ok by (apply _set_device_idx_new; [lia | discriminate]).
  erewrite bind_ok
    by (apply _set_pixel_format_first; [eassumption | reflexivity ..]).
  erewrite bind_ok by (apply _set_buffer_type_new; discriminate).
  erewrite bind_ok by (apply resize_new; auto; discriminate).
  exact Hre.
Qed.

Lemma _set_device_idx_rejects v st :
  v < 0 -> _set_device_idx (Some v) st = (Raise AssertionError, st).
Proof.
  intros Hv. unfold _set_device_idx. unfold_monad.
  destruct (Z.leb_spec 0 v); [lia | reflexivity].
Qed.

(** X8.  [device_idx=None] is not replaced by the default 0: the assignment
    [device_idx = 0] binds a local name only, and the comparison [None >= 0]
    that follows raises [TypeError]; a negative index fails the assertion.
    Either way the setter leaves the state as it was, and the constructor,
    which assigns the device index first, stops with every slot still
    [None] and nothing allocated. *)
Theorem device_idx_validation b value w h st :
  _set_device_idx None st = (Raise TypeError, st) /\
  (forall v, v < 0 -> _set_device_idx (Some v) st = (Raise AssertionError, st)) /\
  __init__ b value w h None st = (Raise TypeError, mkState blank (world st)) /\
  (forall v, v < 0 ->
     __init__ b value w h (Some v) st
     = (Raise AssertionError, mkState blank (world st))).
Proof.
  split_and!; try reflexivity.
  - intros v Hv. apply _set_device_idx_rejects, Hv.
  - intros v Hv. unfold __init__.
    erewrite bind_ok by reflexivity.
    apply bind_raise, _set_device_idx_rejects, Hv.
Qed.

(** *** The export *)

(** X9.  On a [CUDA_DEVICE] controller whose buffers are materialized, [get_pbo]
    returns the handle it holds, or the one [glGenBuffers] makes when it
    holds none; it copies the [nbytes] of the host buffer from the device
    buffer to the host buffer and only then uploads the host buffer, so the
    data store of the handle has [width * height * itemsize] bytes; and it
    leaves no buffer bound.  The slots other than the handle are as they
    were. *)
Theorem export_copies_then_uploads st d w h i host dev :
  configured CUDA_DEVICE d w h i (self st) ->
  _host_buffer (self st) = Some host ->
  _device_buffer (self st) = Some dev ->
  exists name st' earlier,
    get_pbo st = (Ok (Some name), st') /\
    name = default (gl_next_name (world st)) (_pbo (self st)) /\
    self st' = set_pbo_slot (Some name) (self st) /\
    log (world st')
    = EvGlBindBuffer 0
      :: EvGlBufferData name (w * h * itemsize d)
      :: EvGlBindBuffer name
      :: EvMemcpyDeviceToHost (data_ptr host) (data_ptr dev)
           (w * h * itemsize d)
      :: earlier /\
    gl_store (world st') !! name = Some (w * h * itemsize d) /\
    gl_bound (world st') = 0 /\
    cuda_current (world st') = i /\
    host_allocations st' = host_allocations st /\
    device_allocations st' = device_allocations st.
Proof.
  destruct st as [[pf bt wd ht dv di sm hb db pbo] w0].
  unfold configured. cbn.
  intros (-> & <- & -> & -> & -> & -> & Hhb & Hdb) -> ->.
  destruct host as [hp hs hd], dev as [dp ds dd]. cbn in Hhb, Hdb.
  destruct Hhb as [-> ->], Hdb as [-> ->].
  unfold host_allocations, device_allocations.
  run_method. unfold nbytes. cbn.
  destruct pbo as [name |]; cbn; do 3 eexists;
    (split_and!; [reflexivity .. | apply lookup_insert_eq | | | | ];
     reflexivity).
Qed.


(** X11.  [get_pbo] makes the handle before it looks at the buffer type.  On a
    controller of another type than [CUDA_DEVICE] that holds no handle, the
    export raises [NotImplementedError] and yet has called [glGenBuffers]
    and stored the new handle, which the next export will find. *)
Theorem export_makes_handle_before_failing st b d :
  _buffer_type (self st) = Some b -> b <> CUDA_DEVICE ->
  _device (self st) = Some d -> _pbo (self st) = None ->
  fst (get_pbo st)
  = Raise (NotImplementedError (not_implemented_msg (VMember b))) /\
  _pbo (self (after get_pbo st)) = Some (gl_next_name (world st)) /\
  handles_created (after get_pbo st) = S (handles_created st) /\
  gl_next_name (world (after get_pbo st)) = gl_next_name (world st) + 1 /\
  gl_store (world (after get_pbo st)) = gl_store (world st).
Proof.
  destruct st as [[pf bt wd ht dv di sm hb db pbo] w0]. cbn.
  intros -> Hb -> ->. unfold after, handles_created. run_method.
  destruct b; [congruence | ..]; cbn; split_and!; reflexivity.
Qed.

(** *** Reallocation and the display buffer *)

(** X12.  When [map] reallocates on a controller that holds a display buffer
    handle, it gives the data store of that handle the size of the new host
    buffer, [width * height * itemsize] bytes, keeps the handle and leaves
    no buffer bound. *)
Theorem reallocation_resizes_display_buffer st d w h i name :
  configured CUDA_DEVICE d w h i (self st) -> 0 <= w -> 0 <= h ->
  needs_reallocation (self st) = true ->
  _pbo (self st) = Some name ->
  exists p st',
    map st = (Ok p, st') /\
    _pbo (self st') = Some name /\
    gl_store (world st') !! name = Some (w * h * itemsize d) /\
    gl_bound (world st') = 0 /\
    handles_created st' = handles_created st.
Proof.
  destruct st as [[pf bt wd ht dv di sm hb db pbo] w0].
  unfold configured, needs_reallocation, storage_dtype. cbn.
  intros (-> & <- & -> & -> & -> & -> & Hhb & Hdb) Hw Hh Hneed ->.
  unfold handles_created.
  destruct pf as [d |];
  destruct hb as [host |], db as [dev |]; cbn in Hneed; try discriminate;
    run_method;
    (destruct (Z.ltb_spec w 0); [lia |]);
    (destruct (Z.ltb_spec h 0); [lia |]); cbn; unfold nbytes; cbn;
    do 2 eexists;
    (split_and!; [reflexivity | reflexivity | apply lookup_insert_eq | | ];
     reflexivity).
Qed.

(** *** [map] twice *)

Lemma map_materialized st d host dev :
  _device (self st) = Some d ->
  _host_buffer (self st) = Some host ->
  _device_buffer (self st) = Some dev ->
  map st = (Ok (data_ptr dev), used d st).
Proof.
  destruct st as [[pf bt wd ht dv di sm hb db pbo] w0]. cbn.
  intros -> -> ->. reflexivity.
Qed.

(** A [map] that returns leaves both buffers materialized, and returns the
    address of the device buffer. *)
Lemma map_returns_materialized st p st1 :
  map st = (Ok p, st1) ->
  exists d host dev,
    _device (self st1) = Some d /\
    _host_buffer (self st1) = Some host /\
    _device_buffer (self st1) = Some dev /\ data_ptr dev = p.
Proof.
  destruct st as [[pf bt wd ht dv di sm hb db pbo] w0].
  destruct dv as [d |]; [| discriminate].
  assert (needs_reallocation
            (mkSelf pf bt wd ht (Some d) di sm hb db pbo) = false \/
          needs_reallocation
            (mkSelf pf bt wd ht (Some d) di sm hb db pbo) = true)
    as [Hneed | Hneed] by (destruct (needs_reallocation _); auto).
  - unfold needs_reallocation in Hneed. cbn in Hneed.
    destruct hb as [host |], db as [dev |]; try discriminate.
    intros [= <- <-]. cbn. eauto 10.
  - unfold needs_reallocation in Hneed. cbn in Hneed.
    run_method. rewrite Hneed.
    destruct bt as [[] |]; cbn; try discriminate.
    destruct pf as [f |]; cbn;
      (destruct wd as [w |], ht as [h |]; cbn; try discriminate);
      (destruct ((w <? 0) || (h <? 0)); cbn; [discriminate |]);
      (destruct pbo as [name |]; cbn; intros [= <- <-]; cbn; eauto 10).
Qed.

(** X13.  Whenever [map] returns a pointer, a second [map] returns the same
    pointer, allocates nothing and leaves the slots as the first left them.
    On a configured [CUDA_DEVICE] controller whose stored width and height
    are not negative the first [map] does return. *)
Theorem map_twice st :
  (forall p st1, map st = (Ok p, st1) ->
     exists st2,
       map st1 = (Ok p, st2) /\
       self st2 = self st1 /\
       host_allocations st2 = host_allocations st1 /\
       device_allocations st2 = device_allocations st1) /\
  (forall d w h i,
     configured CUDA_DEVICE d w h i (self st) -> 0 <= w -> 0 <= h ->
     exists p st1, map st = (Ok p, st1)).
Proof.
  split.
  - intros p st1 Hm1.
    destruct (map_returns_materialized st p st1 Hm1)
      as (d & host & dev & Hd & Hh & Hb & Hp).
    pose proof (map_materialized st1 d host dev Hd Hh Hb) as Hm2.
    rewrite Hp in Hm2.
    exists (used d st1). split_and!; auto.
  - intros d w h i Hconf Hw Hh.
    destruct (map_configured st d w h i Hconf Hw Hh) as (p & _ & _ & st1 & Hm & _).
    eauto.
Qed.

(** *** The width and height that are stored *)

Lemma _set_width_overflow v st :
  long_max < v -> _set_width v st = (Raise OverflowError, st).
Proof.
  intros Hv. unfold _set_width. unfold_monad.
  destruct (Z.leb_spec 1 v); [| unfold long_max in Hv; lia]. cbn.
  rewrite (np_int32_overflow v Hv). reflexivity.
Qed.

Lemma _set_height_overflow v st :
  long_max < v -> _set_height v st = (Raise OverflowError, st).
Proof.
  intros Hv. unfold _set_height. unfold_monad.
  destruct (Z.leb_spec 1 v); [| unfold long_max in Hv; lia]. cbn.
  rewrite (np_int32_overflow v Hv). reflexivity.
Qed.

(** X14.  The assertion of [_set_width] and [_set_height] sees the value before
    [np.int32] converts it.  On a configured [CUDA_DEVICE] controller whose
    stored width is not negative, a width from 1 to the largest C [long]
    whose low 32 bits make a negative number, such as 2^31, is stored as
    that number, and the [map] that follows raises [ValueError] in
    [np.empty]: it allocates nothing and both buffers stay null.  A width
    or height beyond the largest C [long] raises [OverflowError] in
    [np.int32] and leaves the state as it was. *)
Theorem wrapped_width_breaks_map st d w h i :
  configured CUDA_DEVICE d w h i (self st) -> 0 <= w ->
  (forall v, 1 <= v <= long_max -> wrap_int32 v < 0 ->
     let st1 := after (_set_width v) st in
     fst (_set_width v st) = Ok tt /\
     _width (self st1) = Some (wrap_int32 v) /\
     fst (map st1) = Raise ValueError /\
     _host_buffer (self (after map st1)) = None /\
     _device_buffer (self (after map st1)) = None /\
     host_allocations (after map st1) = host_allocations st /\
     device_allocations (after map st1) = device_allocations st) /\
  (forall v, long_max < v ->
     _set_width v st = (Raise OverflowError, st) /\
     _set_height v st = (Raise OverflowError, st)).
Proof.
  intros Hconf Hw. split.
  - revert Hconf Hw.
    destruct st as [[pf bt wd ht dv di sm hb db pbo] w0].
    unfold configured, storage_dtype. cbn.
    intros (-> & <- & -> & -> & -> & -> & Hhb & Hdb) Hw v Hv Hneg.
    unfold after, host_allocations, device_allocations.
    unfold _set_width. unfold_monad.
    destruct (Z.leb_spec 1 v); [| lia]. cbn.
    rewrite np_int32_long by (unfold long_min; lia). cbn.
    rewrite bool_decide_eq_true_2 by (intros [= ?]; lia).
    cbn. run_method.
    destruct pf as [d |]; cbn;
      (destruct (Z.ltb_spec (wrap_int32 v) 0); [| lia]); cbn;
      split_and!; reflexivity.
  - intros v Hv. split;
      [apply _set_width_overflow | apply _set_height_overflow]; exact Hv.
Qed.

(** *** Reading back what was assigned *)

(** X15.  After an accepted assignment to [width], [height], [buffer_type] or
    [pixel_format], new or not, the property reads back the value assigned:
    for a width or height from 1 to 2^31 - 1 the value itself, for a string
    tag the storage type it resolves to.  The one exception is the default
    storage type assigned while [pixel_format] is still [None]: the setter
    takes the two for equal and stores nothing, so the property still reads
    [None]. *)
Theorem properties_read_back_assignments st :
  (forall v, 1 <= v <= int32_max ->
     fst (_get_width (after (_set_width v) st)) = Ok (VInt32 v)) /\
  (forall v, 1 <= v <= int32_max ->
     fst (_get_height (after (_set_height v) st)) = Ok (VInt32 v)) /\
  (forall b,
     fst (_get_buffer_type (after (_set_buffer_type b) st)) = Ok (VMember b)) /\
  (forall value d, resolves_to value d ->
     fst (_get_pixel_format (after (_set_pixel_format value) st))
     = Ok (if bool_decide (_pixel_format (self st) = None /\ d = default_dtype)
           then VNone else VDtype d)).
Proof.
  destruct st as [[pf bt wd ht dv di sm hb db pbo] w0].
  assert (forall v, 1 <= v <= int32_max -> np_int32 v = Some v) as Hexact
    by (intros v Hv; apply np_int32_exact;
        unfold is_int32, int32_min, int32_max in *; lia).
  split_and!.
  - intros v Hv. unfold after, _set_width, _get_width. unfold_monad.
    destruct (Z.leb_spec 1 v); [| lia]. cbn. rewrite (Hexact v Hv). cbn.
    case_bool_decide as Hcmp; cbn; [reflexivity |]. rewrite <- Hcmp. reflexivity.
  - intros v Hv. unfold after, _set_height, _get_height. unfold_monad.
    destruct (Z.leb_spec 1 v); [| lia]. cbn. rewrite (Hexact v Hv). cbn.
    case_bool_decide as Hcmp; cbn; [reflexivity |]. rewrite <- Hcmp. reflexivity.
  - intros b. unfold after, _set_buffer_type, _get_buffer_type. unfold_monad.
    cbn. case_bool_decide as Hcmp; cbn; [reflexivity |].
    rewrite <- Hcmp. reflexivity.
  - intros value d Hres. cbn [self _pixel_format].
    destruct (decide (default default_dtype pf = d)) as [Heq | Hne].
    + unfold after.
      rewrite (_set_pixel_format_equal _ value d Hres) by exact Heq.
      cbn. destruct pf as [f |]; cbn in Heq; subst d.
      * rewrite bool_decide_eq_false_2 by (intros [[=] _]). reflexivity.
      * rewrite bool_decide_eq_true_2 by auto. reflexivity.
    + unfold after.
      rewrite (_set_pixel_format_new _ value d Hres) by exact Hne.
      cbn. rewrite bool_decide_eq_false_2; [reflexivity |].
      intros [-> ->]. apply Hne. reflexivity.
Qed.

(** *** The storage invariant *)

Lemma _set_width_fresh v st :
  1 <= v <= long_max -> _width (self st) = None ->
  _set_width v st =
    (Ok tt, mkState (invalidated (set_width_slot (Some (wrap_int32 v)) (self st)))
              (world st)).
Proof.
  intros Hv Hw. unfold _set_width. unfold_monad.
  destruct (Z.leb_spec 1 v); [| lia]. cbn.
  rewrite np_int32_long by (unfold long_min; lia). cbn.
  rewrite Hw. reflexivity.
Qed.

Lemma _set_height_fresh v st :
  1 <= v <= long_max -> _height (self st) = None ->
  _set_height v st =
    (Ok tt, mkState (invalidated (set_height_slot (Some (wrap_int32 v)) (self st)))
              (world st)).
Proof.
  intros Hv Hh. unfold _set_height. unfold_monad.
  destruct (Z.leb_spec 1 v); [| lia]. cbn.
  rewrite np_int32_long by (unfold long_min; lia). cbn.
  rewrite Hh. reflexivity.
Qed.

Lemma _set_pixel_format_outcome value st :
  (exists d, resolves_to value d) \/
  (exists e, _set_pixel_format value st = (Raise e, st)).
Proof.
  destruct value as [tag | d | name]; cbn [resolves_to].
  - destruct (vtype_to_dtype tag) as [d |] eqn:Htag; [left; eauto |].
    right. eexists. apply _set_pixel_format_rejects, Htag.
  - left. eauto.
  - right. eexists. reflexivity.
Qed.

Lemma _reallocate_buffers_returns st st' b d w h i :
  _buffer_type (self st) = Some b -> storage_dtype (self st) = d ->
  _width (self st) = Some w -> _height (self st) = Some h ->
  _device_idx (self st) = Some i -> _device (self st) = Some (mkDevice i) ->
  _reallocate_buffers st = (Ok tt, st') ->
  configured b d w h i (self st').
Proof.
  destruct st as [[pf bt wd ht dv di sm hb db pbo] w0].
  unfold storage_dtype. cbn.
  intros -> <- -> -> -> ->. run_method.
  destruct b; cbn; try discriminate.
  destruct pf as [d |]; cbn;
    (destruct (w <? 0), (h <? 0); cbn; try discriminate);
    destruct pbo as [name |]; cbn; intros [= <-];
    unfold configured; cbn; split_and!; reflexivity.
Qed.

Lemma resolves_to_functional value d1 d2 :
  resolves_to value d1 -> resolves_to value d2 -> d1 = d2.
Proof. destruct value; cbn; congruence || tauto. Qed.

Lemma __init___returns b value w h i st st' :
  __init__ b value w h i st = (Ok tt, st') ->
  exists d i',
    i = Some i' /\ resolves_to value d /\
    configured b d (wrap_int32 w) (wrap_int32 h) i' (self st') /\
    _pixel_format (self st') = first_format d.
Proof.
  unfold __init__.
  erewrite bind_ok by reflexivity.
  destruct i as [i |]; [| discriminate].
  destruct (Z.lt_ge_cases i 0) as [Hi | Hi].
  { erewrite bind_raise by (apply _set_device_idx_rejects, Hi). discriminate. }
  erewrite bind_ok by (apply _set_device_idx_new; [lia | discriminate]).
  match goal with
  | |- (_ ≫= _) ?s = _ -> _ =>
      destruct (_set_pixel_format_outcome value s) as [[d Hres] | [e Hraise]]
  end.
  2: { erewrite bind_raise by exact Hraise. discriminate. }
  erewrite bind_ok
    by (apply _set_pixel_format_first; [eassumption | reflexivity ..]).
  erewrite bind_ok by (apply _set_buffer_type_new; discriminate).
  destruct (Z.lt_ge_cases w 1) as [Hw | Hw].
  { erewrite bind_raise
      by (unfold resize; apply bind_raise, _set_width_rejects, Hw).
    discriminate. }
  destruct (Z.lt_ge_cases long_max w) as [Hwl | Hwl].
  { erewrite bind_raise
      by (unfold resize; apply bind_raise, _set_width_overflow, Hwl).
    discriminate. }
  destruct (Z.lt_ge_cases h 1) as [Hh | Hh].
  { erewrite bind_raise
      by (unfold resize;
          erewrite bind_ok by (apply _set_width_fresh; [lia | reflexivity]);
          apply _set_height_rejects, Hh).
    discriminate. }
  destruct (Z.lt_ge_cases long_max h) as [Hhl | Hhl].
  { erewrite bind_raise
      by (unfold resize;
          erewrite bind_ok by (apply _set_width_fresh; [lia | reflexivity]);
          apply _set_height_overflow, Hhl).
    discriminate. }
  erewrite bind_ok
    by (unfold resize;
        erewrite bind_ok by (apply _set_width_fresh; [lia | reflexivity]);
        apply _set_height_fresh; [lia | reflexivity]).
  intros Hre. exists d, i. split_and!; [reflexivity | exact Hres | |].
  - revert Hre. apply _reallocate_buffers_returns; try reflexivity.
    apply storage_dtype_first_format. reflexivity.
  - assert (unchanged (fun st => _pixel_format (self st)) _reallocate_buffers)
      as Hkeep by (unfold_methods; frame).
    match type of Hre with
    | _ ?s = _ => specialize (Hkeep s)
    end.
    rewrite Hre in Hkeep. exact Hkeep.
Qed.

Lemma __init___is_configured b value w h i st st' :
  __init__ b value w h i st = (Ok tt, st') -> is_configured (self st').
Proof.
  intros Hinit.
  destruct (__init___returns _ _ _ _ _ _ _ Hinit) as (d & i' & _ & _ & Hc & _).
  unfold is_configured. eauto 10.
Qed.

(** X16.  Whenever the constructor returns, and after any sequence of calls on
    the controller it made, the buffer type, the width, the height and the
    device index are set, the device handle is the one of the device index,
    and each buffer that is not null has the shape [(width, height)] and as
    element type the storage type of the controller: the one [pixel_format]
    holds, or NumPy's default one while [pixel_format] is still [None],
    which is how the constructor leaves it when it is given the default
    storage type. *)
Theorem storage_matches_descriptor b value w h i st st' cs :
  __init__ b value w h i st = (Ok tt, st') ->
  (exists b' w' h' i',
     let c := self (run cs st') in
     _buffer_type c = Some b' /\
     _width c = Some w' /\ _height c = Some h' /\
     _device_idx c = Some i' /\ _device c = Some (mkDevice i') /\
     (forall a, _host_buffer c = Some a ->
        shape a = (w', h') /\
        arr_dtype a = default default_dtype (_pixel_format c)) /\
     (forall a, _device_buffer c = Some a ->
        shape a = (w', h') /\
        arr_dtype a = default default_dtype (_pixel_format c))) /\
  (exists d, resolves_to value d /\
     _pixel_format (self st') = first_format d).
Proof.
  intros Hinit. split.
  - pose proof (run_configured cs st'
                  (__init___is_configured _ _ _ _ _ _ _ Hinit))
      as (b' & d' & w' & h' & i' & Hb & Hd & Hw & Hh & Hi & Hdev & Hhost & Hbuf).
    unfold storage_dtype in Hd. subst d'.
    exists b', w', h', i'. cbv zeta. split_and!; try assumption.
    + intros a Ha. rewrite Ha in Hhost. exact Hhost.
    + intros a Ha. rewrite Ha in Hbuf. exact Hbuf.
  - destruct (__init___returns _ _ _ _ _ _ _ Hinit)
      as (d & _ & _ & Hres & _ & Hpf).
    exists d. split; [exact Hres | exact Hpf].
Qed.

End Controller.

(** ** The properties on a concrete controller

    The format table of the beginning instantiates the model; the
    controller below is a 4 x 3 [uchar4] buffer of type [CUDA_DEVICE] on
    device 0, made by the constructor. *)

#[local] Abbreviation sample_init := (__init__ sample_itemsize float64 sample_resolver).
#[local] Abbreviation sample_exec := (exec sample_itemsize float64 sample_resolver).
#[local] Abbreviation sample_run := (run sample_itemsize float64 sample_resolver).
#[local] Abbreviation sample_map := (map sample_itemsize float64).
#[local] Abbreviation sample_get_pbo := (get_pbo sample_itemsize).
#[local] Abbreviation sample_configured := (configured float64).
#[local] Abbreviation sample_set_pixel_format :=
  (_set_pixel_format float64 sample_resolver).
#[local] Abbreviation sample_controller :=
  (after (sample_init CUDA_DEVICE (FmtStr "uchar4") 4 3 (Some 0)) new_instance).

(** What the model computes on the sample controller. *)

Example np_int32_wraps :
  np_int32 5 = Some 5 /\ np_int32 (2 ^ 31) = Some (- 2 ^ 31) /\
  np_int32 (2 ^ 32 + 4) = Some 4 /\ np_int32 (2 ^ 63 - 1) = Some (-1) /\
  np_int32 (2 ^ 63 + 2 ^ 31) = None.
Proof. split_and!; reflexivity. Qed.

Example sample_controller_slots :
  self sample_controller
  = mkSelf (Some uchar4) (Some CUDA_DEVICE) (Some 4) (Some 3)
      (Some (mkDevice 0)) (Some 0) None
      (Some (mkArray 4096 (4, 3) uchar4)) (Some (mkArray 8192 (4, 3) uchar4))
      None.
Proof. vm_compute. reflexivity. Qed.

(** Given the default storage type, the constructor leaves the
    [pixel_format] slot at [None] and makes the buffers of that type. *)
Example default_format_controller_slots :
  self (after (sample_init CUDA_DEVICE (FmtDtype float64) 4 3 (Some 0))
          new_instance)
  = mkSelf None (Some CUDA_DEVICE) (Some 4) (Some 3)
      (Some (mkDevice 0)) (Some 0) None
      (Some (mkArray 4096 (4, 3) float64)) (Some (mkArray 8192 (4, 3) float64))
      None.
Proof. vm_compute. reflexivity. Qed.

Example sample_controller_log :
  log (world sample_controller)
  = [EvCpEmpty (mkArray 8192 (4, 3) uchar4);
     EvNpEmpty (mkArray 4096 (4, 3) uchar4)].
Proof. vm_compute. reflexivity. Qed.

Example sample_map_returns_device_pointer :
  fst (sample_map sample_controller) = Ok 8192.
Proof. vm_compute. reflexivity. Qed.

Example sample_export_log :
  fst (sample_get_pbo sample_controller) = Ok (Some 1) /\
  log (world (after sample_get_pbo sample_controller))
  = [EvGlBindBuffer 0; EvGlBufferData 1 48; EvGlBindBuffer 1;
     EvMemcpyDeviceToHost 4096 8192 48; EvGlGenBuffers 1;
     EvDeviceUse (mkDevice 0);
     EvCpEmpty (mkArray 8192 (4, 3) uchar4);
     EvNpEmpty (mkArray 4096 (4, 3) uchar4)].
Proof. vm_compute. split; reflexivity. Qed.

Example sample_release_absent :
  delete_pbo sample_controller = (Ok tt, sample_controller).
Proof. vm_compute. reflexivity. Qed.

(** C1 on the sample controller. *)
Lemma unmap_device_local_raises_witness :
  fst (unmap sample_controller) = Raise (NameError "buffer_type") /\
  synchronizations (after unmap sample_controller)
  = synchronizations sample_controller.
Proof.
  apply (unmap_device_local_raises sample_controller (mkDevice 0));
    reflexivity.
Defined.

(** C2 for a 640 x 480 [float4] buffer on device 1. *)
Lemma map_after_configure_witness :
  (exists st,
     sample_init CUDA_DEVICE (FmtStr "float4") 640 480 (Some 1) new_instance
     = (Ok tt, st) /\
     sample_configured CUDA_DEVICE float4 640 480 1 (self st) /\
     needs_reallocation (self st) = false) /\
  (forall st, sample_configured CUDA_DEVICE float4 640 480 1 (self st) ->
     exists p dev host st',
       sample_map st = (Ok p, st') /\
       _device_buffer (self st') = Some dev /\ data_ptr dev = p /\
       nbytes sample_itemsize dev = 640 * 480 * sample_itemsize float4 /\
       _host_buffer (self st') = Some host /\
       nbytes sample_itemsize host = 640 * 480 * sample_itemsize float4 /\
       cuda_current (world st') = 1 /\
       host_allocations st' =
         (host_allocations st
          + if needs_reallocation (self st) then 1 else 0)%nat /\
       device_allocations st' =
         (device_allocations st
          + if needs_reallocation (self st) then 1 else 0)%nat) /\
  (forall b, b <> CUDA_DEVICE ->
     fst (sample_init b (FmtStr "float4") 640 480 (Some 1) new_instance)
     = Raise (NotImplementedError
                (not_implemented_msg (dtype:=sample_dtype) (VMember b)))) /\
  (forall b st, b <> CUDA_DEVICE ->
     sample_configured b float4 640 480 1 (self st) ->
     needs_reallocation (self st) = true ->
     fst (sample_map st)
     = Raise (NotImplementedError
                (not_implemented_msg (dtype:=sample_dtype) (VMember b))) /\
     host_allocations (after sample_map st) = host_allocations st /\
     device_allocations (after sample_map st) = device_allocations st).
Proof.
  apply (map_after_configure sample_itemsize float64 sample_resolver
           (FmtStr "float4") float4 640 480 1 blank initial_world);
    [reflexivity | unfold int32_max; lia | unfold int32_max; lia | lia].
Defined.

(** C2, as stated, fails: for the buffer type [GL_INTEROP] the constructor
    itself raises, and on a controller switched to [ZERO_COPY] the [map]
    returns no pointer; nor does the constructor return for the width
    2^31, which [np.int32] does not hold. *)
Lemma configure_other_type_raises :
  fst (sample_init GL_INTEROP (FmtStr "uchar4") 4 3 (Some 0) new_instance)
  = Raise (NotImplementedError
             "Buffer type CudaOutputBufferType.GL_INTEROP has not been implemented yet.") /\
  fst (sample_map (sample_exec (Set_buffer_type ZERO_COPY) sample_controller))
  = Raise (NotImplementedError
             "Buffer type CudaOutputBufferType.ZERO_COPY has not been implemented yet.") /\
  ~ (exists p st',
       sample_map (sample_exec (Set_buffer_type ZERO_COPY) sample_controller)
       = (Ok p, st')) /\
  ~ (exists st,
       sample_init CUDA_DEVICE (FmtStr "uchar4") (2 ^ 31) 3 (Some 0) new_instance
       = (Ok tt, st)).
Proof.
  split_and!; [reflexivity | reflexivity | |].
  - intros (p & st' & Hmap). vm_compute in Hmap. discriminate.
  - intros (st & Hinit). vm_compute in Hinit. discriminate.
Qed.

(** C3 for the assignment of the width 8 to the sample controller, whose
    width is 4. *)
Lemma new_value_invalidates_storage_witness :
  let st1 := sample_exec (Set_width 8) sample_controller in
  _host_buffer (self st1) = None /\
  _device_buffer (self st1) = None /\
  world st1 = world sample_controller /\
  match _buffer_type (self st1) with
  | Some CUDA_DEVICE =>
      exists p st2,
        sample_map st1 = (Ok p, st2) /\
        host_allocations st2 = S (host_allocations st1) /\
        device_allocations st2 = S (device_allocations st1) /\
        is_Some (_host_buffer (self st2)) /\
        is_Some (_device_buffer (self st2))
  | Some b' =>
      exists st2,
        sample_map st1 =
          (Raise (NotImplementedError (not_implemented_msg (dtype:=sample_dtype) (VMember b'))), st2) /\
        host_allocations st2 = host_allocations st1 /\
        device_allocations st2 = device_allocations st1 /\
        _host_buffer (self st2) = None /\
        _device_buffer (self st2) = None
  | None => False
  end.
Proof.
  apply (new_value_invalidates_storage sample_itemsize float64 sample_resolver
           (Set_width 8) sample_controller CUDA_DEVICE uchar4 4 3 0).
  - vm_compute. split_and!; reflexivity.
  - lia.
  - lia.
  - split; [unfold int32_max; lia | vm_compute; discriminate].
Defined.

(** C3, as stated, fails: after [buffer_type] is assigned the new value
    [GL_INTEROP] both buffers are null, and the [map] that follows raises
    and reallocates neither.  A width of 2^32 + 4, which differs from
    the current 4 but which [np.int32] takes to 4, nulls no buffer.  And
    once the width 2^31 has been stored as -2^31, assigning the new height
    5 nulls both buffers, but the [map] that follows raises [ValueError]
    and reallocates neither.  And on a controller made with the default
    storage type, whose [pixel_format] reads [None], assigning that storage
    type nulls no buffer. *)
Lemma buffer_type_change_then_map_allocates_nothing :
  let st := sample_controller in
  let st1 := sample_exec (Set_buffer_type GL_INTEROP) st in
  _buffer_type (self st) <> Some GL_INTEROP /\
  _host_buffer (self st1) = None /\
  _device_buffer (self st1) = None /\
  fst (sample_map st1)
  = Raise (NotImplementedError
             "Buffer type CudaOutputBufferType.GL_INTEROP has not been implemented yet.") /\
  host_allocations (after sample_map st1) = host_allocations st1 /\
  device_allocations (after sample_map st1) = device_allocations st1 /\
  host_allocations (after sample_map st1) <> S (host_allocations st1) /\
  _host_buffer (self (after sample_map st1)) = None /\
  _host_buffer (self (sample_exec (Set_width (2 ^ 32 + 4)) st)) <> None /\
  (let st2 := sample_run [Set_width (2 ^ 31); Set_height 5] st in
   _width (self st2) = Some (- 2 ^ 31) /\
   _height (self (sample_exec (Set_width (2 ^ 31)) st)) <> Some 5 /\
   _host_buffer (self st2) = None /\
   _device_buffer (self st2) = None /\
   fst (sample_map st2) = Raise ValueError /\
   host_allocations (after sample_map st2) = host_allocations st2 /\
   device_allocations (after sample_map st2) = device_allocations st2) /\
  (let st3 := after (sample_init CUDA_DEVICE (FmtDtype float64) 4 3 (Some 0))
                new_instance in
   fst (_get_pixel_format st3) = Ok VNone /\
   _host_buffer (self (sample_exec (Set_pixel_format (FmtDtype float64)) st3))
   <> None).
Proof.
  cbv zeta. split_and!;
    solve [ vm_compute; reflexivity | vm_compute; discriminate ].
Qed.

(** C4 for the assignment of the width 4 to the sample controller, whose
    width is 4. *)
Lemma assigning_current_value_is_noop_witness :
  sample_exec (Set_width 4) sample_controller = sample_controller /\
  _host_buffer (self (sample_exec (Set_width 4) sample_controller))
  = _host_buffer (self sample_controller) /\
  _device_buffer (self (sample_exec (Set_width 4) sample_controller))
  = _device_buffer (self sample_controller) /\
  host_allocations (sample_exec (Set_width 4) sample_controller)
  = host_allocations sample_controller /\
  device_allocations (sample_exec (Set_width 4) sample_controller)
  = device_allocations sample_controller /\
  sample_map (sample_exec (Set_width 4) sample_controller)
  = sample_map sample_controller.
Proof.
  apply (assigning_current_value_is_noop sample_itemsize float64
           sample_resolver (Set_width 4) sample_controller).
  split; [reflexivity | unfold is_int32, int32_min, int32_max; lia].
Defined.

(** C5 for an export, a resize, a [map] and a second export. *)
Lemma display_handle_made_once_and_kept_witness :
  let cs := [Get_pbo; Set_width 8; Map; Get_pbo] in
  (forall h, _pbo (self sample_controller) = Some h ->
     _pbo (self (sample_run cs sample_controller)) = Some h /\
     handles_created (sample_run cs sample_controller)
     = handles_created sample_controller) /\
  (handles_created (sample_run cs sample_controller)
   <= S (handles_created sample_controller))%nat /\
  (~ In Get_pbo cs ->
   handles_created (sample_run cs sample_controller)
   = handles_created sample_controller) /\
  (forall r st1,
     sample_get_pbo (sample_run cs sample_controller) = (Ok r, st1) ->
     r = _pbo (self st1) /\
     exists h st2, r = Some h /\ sample_get_pbo st1 = (Ok (Some h), st2)) /\
  (forall st0 d, _device (self st0) = Some d -> _pbo (self st0) = None ->
     _pbo (self (after sample_get_pbo st0)) = Some (gl_next_name (world st0)) /\
     handles_created (after sample_get_pbo st0) = S (handles_created st0)) /\
  (forall st0 d host dev,
     _buffer_type (self st0) = Some CUDA_DEVICE ->
     _device (self st0) = Some d ->
     _host_buffer (self st0) = Some host ->
     _device_buffer (self st0) = Some dev ->
     exists st1,
       sample_get_pbo st0
       = (Ok (Some (default (gl_next_name (world st0)) (_pbo (self st0)))),
          st1)).
Proof.
  apply (display_handle_made_once_and_kept sample_itemsize float64
           sample_resolver [Get_pbo; Set_width 8; Map; Get_pbo]
           sample_controller).
  repeat constructor.
Defined.

(** C6 on the sample controller switched to [GL_INTEROP]. *)
Lemma unimplemented_types_transfer_operations_witness :
  let st := sample_exec (Set_buffer_type GL_INTEROP) sample_controller in
  fst (sample_map st)
  = Raise (NotImplementedError
             (not_implemented_msg (dtype:=sample_dtype) (VMember GL_INTEROP))) /\
  fst (sample_get_pbo st)
  = Raise (NotImplementedError
             (not_implemented_msg (dtype:=sample_dtype) (VMember GL_INTEROP))) /\
  fst (unmap st) = Raise (NameError "buffer_type") /\
  fst (get_host_buffer sample_itemsize st) = Raise (NameError "buffer_type").
Proof.
  apply (unimplemented_types_transfer_operations sample_itemsize float64
           (sample_exec (Set_buffer_type GL_INTEROP) sample_controller)
           GL_INTEROP (mkDevice 0)).
  - reflexivity.
  - discriminate.
  - reflexivity.
  - left. reflexivity.
Defined.

(** C8 for the width 0, the height -3 and the tag [rgba], which the format
    table does not know. *)
Lemma invalid_dimension_and_format_raise_witness :
  _set_width 0 sample_controller = (Raise AssertionError, sample_controller) /\
  _set_height (-3) sample_controller
  = (Raise AssertionError, sample_controller) /\
  sample_set_pixel_format (FmtStr "rgba") sample_controller
  = (Raise (InvalidFormat "rgba"), sample_controller) /\
  fst (sample_init CUDA_DEVICE (FmtStr "uchar4") 0 3 (Some 0) sample_controller)
  = Raise AssertionError /\
  fst (sample_init CUDA_DEVICE (FmtStr "rgba") 4 3 (Some 0) sample_controller)
  = Raise (InvalidFormat "rgba").
Proof.
  destruct (invalid_dimension_and_format_raise sample_itemsize float64
              sample_resolver sample_controller)
    as (Hwidth & Hheight & Hformat & Hinit_dim & Hinit_fmt).
  split_and!.
  - apply Hwidth. lia.
  - apply Hheight. lia.
  - apply Hformat. reflexivity.
  - apply (Hinit_dim CUDA_DEVICE (FmtStr "uchar4") uchar4 0 3 0);
      [reflexivity | lia | left; lia].
  - apply (Hinit_fmt CUDA_DEVICE "rgba" 4 3 0); [reflexivity | lia].
Defined.

(** C9 on the sample controller after an export, when its handle is 1. *)
Lemma delete_pbo_present_raises_witness :
  let st := after sample_get_pbo sample_controller in
  fst (delete_pbo st) = Raise (NameError "glDeleteBuffers") /\
  _pbo (self (after delete_pbo st)) = Some 1 /\
  handles_destroyed (after delete_pbo st) = handles_destroyed st /\
  fst (delete_pbo (after delete_pbo st)) = Raise (NameError "glDeleteBuffers").
Proof.
  apply (delete_pbo_present_raises (after sample_get_pbo sample_controller) 1).
  reflexivity.
Defined.

(** C10 on the sample controller, after its device index is set to 2 and
    its width to 8. *)
Lemma device_idx_reads_device_handle_witness :
  let st := sample_run [Set_device_idx (Some 2); Set_width 8] sample_controller in
  fst (_get_device_idx st) = Ok (of_slot VDevice (_device (self st))) /\
  fst (_get_device_idx st) = Ok (VDevice (mkDevice 2)) /\
  (forall n, fst (_get_device_idx st) <> Ok (VInt n)) /\
  (forall n, fst (_get_device_idx st) <> Ok (VInt32 n)).
Proof.
  apply (device_idx_reads_device_handle sample_itemsize float64 sample_resolver
           [Set_device_idx (Some 2); Set_width 8] sample_controller 2).
  - apply __init___device_bound.
  - reflexivity.
Defined.

(** ** The further properties on the sample controller *)

(** Assigning a width leaves the runtime as the constructor left it. *)
Lemma assignments_leave_the_runtime_witness :
  world (sample_exec (Set_width 8) sample_controller) = world sample_controller.
Proof.
  apply (assignments_leave_the_runtime sample_itemsize float64 sample_resolver
           (Set_width 8) sample_controller).
  reflexivity.
Defined.


(** The sample controller holds no handle: three releases change nothing. *)
Lemma delete_pbo_absent_is_noop_witness :
  delete_pbo sample_controller = (Ok tt, sample_controller) /\
  sample_run (replicate 3 Delete_pbo) sample_controller = sample_controller.
Proof.
  apply (delete_pbo_absent_is_noop sample_itemsize float64 sample_resolver 3
           sample_controller).
  reflexivity.
Defined.

(** [resize(8, 0)] on the sample controller, whose size is 4 x 3. *)
Lemma resize_is_not_atomic_witness :
  fst (resize 8 0 sample_controller) = Raise AssertionError /\
  _width (self (after (resize 8 0) sample_controller)) = Some 8 /\
  _height (self (after (resize 8 0) sample_controller))
  = _height (self sample_controller) /\
  _host_buffer (self (after (resize 8 0) sample_controller)) = None /\
  _device_buffer (self (after (resize 8 0) sample_controller)) = None /\
  world (after (resize 8 0) sample_controller) = world sample_controller.
Proof.
  apply (resize_is_not_atomic 8 0 sample_controller).
  - unfold int32_max. lia.
  - vm_compute. discriminate.
  - lia.
Defined.

(** [resize(4, 3)] on the sample controller. *)
Lemma resize_to_current_size_is_noop_witness :
  resize 4 3 sample_controller = (Ok tt, sample_controller).
Proof.
  apply (resize_to_current_size_is_noop 4 3 sample_controller).
  - reflexivity.
  - reflexivity.
  - unfold int32_max. lia.
  - unfold int32_max. lia.
Defined.

(** The constructor of a 640 x 480 [float4] buffer on device 1, called
    while device 0 is current. *)
Lemma constructor_allocates_without_selecting_device_witness :
  exists st,
    sample_init CUDA_DEVICE (FmtStr "float4") 640 480 (Some 1) new_instance
    = (Ok tt, st) /\
    log (world st)
    = [EvCpEmpty (mkArray 8192 (640, 480) float4);
       EvNpEmpty (mkArray 4096 (640, 480) float4)] /\
    cuda_current (world st) = 0 /\
    gl_store (world st) = ∅ /\
    gl_next_name (world st) = 1.
Proof.
  apply (constructor_allocates_without_selecting_device sample_itemsize float64
           sample_resolver (FmtStr "float4") float4 640 480 1 blank
           initial_world);
    [reflexivity | unfold int32_max; lia | unfold int32_max; lia | lia].
Defined.

(** The first export of the sample controller. *)
Lemma export_copies_then_uploads_witness :
  exists name st' earlier,
    sample_get_pbo sample_controller = (Ok (Some name), st') /\
    name = 1 /\
    self st' = set_pbo_slot (Some name) (self sample_controller) /\
    log (world st')
    = EvGlBindBuffer 0
      :: EvGlBufferData name (4 * 3 * sample_itemsize uchar4)
      :: EvGlBindBuffer name
      :: EvMemcpyDeviceToHost 4096 8192 (4 * 3 * sample_itemsize uchar4)
      :: earlier /\
    gl_store (world st') !! name = Some (4 * 3 * sample_itemsize uchar4) /\
    gl_bound (world st') = 0 /\
    cuda_current (world st') = 0 /\
    host_allocations st' = host_allocations sample_controller /\
    device_allocations st' = device_allocations sample_controller.
Proof.
  refine (export_copies_then_uploads sample_itemsize float64 sample_controller
            uchar4 4 3 0 (mkArray 4096 (4, 3) uchar4)
            (mkArray 8192 (4, 3) uchar4) _ _ _).
  - vm_compute. split_and!; reflexivity.
  - reflexivity.
  - reflexivity.
Defined.


(** The export of the sample controller switched to [ZERO_COPY]. *)
Lemma export_makes_handle_before_failing_witness :
  let st := sample_exec (Set_buffer_type ZERO_COPY) sample_controller in
  fst (sample_get_pbo st)
  = Raise (NotImplementedError
             (not_implemented_msg (dtype:=sample_dtype) (VMember ZERO_COPY))) /\
  _pbo (self (after sample_get_pbo st)) = Some (gl_next_name (world st)) /\
  handles_created (after sample_get_pbo st) = S (handles_created st) /\
  gl_next_name (world (after sample_get_pbo st)) = gl_next_name (world st) + 1 /\
  gl_store (world (after sample_get_pbo st)) = gl_store (world st).
Proof.
  apply (export_makes_handle_before_failing sample_itemsize
           (sample_exec (Set_buffer_type ZERO_COPY) sample_controller)
           ZERO_COPY (mkDevice 0)).
  - reflexivity.
  - discriminate.
  - reflexivity.
  - reflexivity.
Defined.

(** The sample controller after an export and a new width of 8: the [map]
    that follows gives the store of handle 1 the 8 x 3 x 4 bytes. *)
Lemma reallocation_resizes_display_buffer_witness :
  let st := sample_run [Get_pbo; Set_width 8] sample_controller in
  exists p st',
    sample_map st = (Ok p, st') /\
    _pbo (self st') = Some 1 /\
    gl_store (world st') !! 1 = Some (8 * 3 * sample_itemsize uchar4) /\
    gl_bound (world st') = 0 /\
    handles_created st' = handles_created st.
Proof.
  apply (reallocation_resizes_display_buffer sample_itemsize float64
           (sample_run [Get_pbo; Set_width 8] sample_controller)
           uchar4 8 3 0 1).
  - vm_compute. split_and!; reflexivity.
  - lia.
  - lia.
  - reflexivity.
  - reflexivity.
Defined.

(** Two [map]s of the sample controller. *)
Lemma map_twice_witness :
  exists p st1 st2,
    sample_map sample_controller = (Ok p, st1) /\
    sample_map st1 = (Ok p, st2) /\
    self st2 = self st1 /\
    host_allocations st2 = host_allocations st1 /\
    device_allocations st2 = device_allocations st1.
Proof.
  destruct (map_twice sample_itemsize float64 sample_controller)
    as [Hsecond Hfirst].
  destruct (Hfirst uchar4 4 3 0) as (p & st1 & Hm1);
    [vm_compute; split_and!; reflexivity | lia | lia |].
  destruct (Hsecond p st1 Hm1) as (st2 & Hm2 & Hrest).
  exists p, st1, st2. split_and!; [exact Hm1 | exact Hm2 | apply Hrest ..].
Defined.

(** The width 2^31 assigned to the sample controller. *)
Lemma wrapped_width_breaks_map_witness :
  (let st1 := after (_set_width (2 ^ 31)) sample_controller in
   fst (_set_width (2 ^ 31) sample_controller) = Ok tt /\
   _width (self st1) = Some (wrap_int32 (2 ^ 31)) /\
   fst (sample_map st1) = Raise ValueError /\
   _host_buffer (self (after sample_map st1)) = None /\
   _device_buffer (self (after sample_map st1)) = None /\
   host_allocations (after sample_map st1) = host_allocations sample_controller /\
   device_allocations (after sample_map st1)
   = device_allocations sample_controller) /\
  _set_width (2 ^ 63 + 2 ^ 31) sample_controller
  = (Raise OverflowError, sample_controller) /\
  _set_height (2 ^ 63 + 2 ^ 31) sample_controller
  = (Raise OverflowError, sample_controller).
Proof.
  destruct (wrapped_width_breaks_map sample_itemsize float64
              sample_controller uchar4 4 3 0) as [Hwrap Hover];
    [vm_compute; split_and!; reflexivity | lia |].
  split.
  - apply (Hwrap (2 ^ 31)); [unfold long_max; lia | vm_compute; reflexivity].
  - apply (Hover (2 ^ 63 + 2 ^ 31)). unfold long_max. lia.
Defined.

(** Assignments to the sample controller, read back. *)
Lemma properties_read_back_assignments_witness :
  fst (_get_width (after (_set_width 8) sample_controller)) = Ok (VInt32 8) /\
  fst (_get_height (after (_set_height 3) sample_controller)) = Ok (VInt32 3) /\
  fst (_get_pixel_format
         (after (sample_set_pixel_format (FmtStr "float4")) sample_controller))
  = Ok (VDtype float4) /\
  fst (_get_pixel_format
         (after (sample_set_pixel_format (FmtDtype float64)) new_instance))
  = Ok VNone.
Proof.
  destruct (properties_read_back_assignments sample_itemsize float64
              sample_resolver sample_controller)
    as (Hwidth & Hheight & _ & Hformat).
  destruct (properties_read_back_assignments sample_itemsize float64
              sample_resolver new_instance)
    as (_ & _ & _ & Hblank).
  split_and!.
  - apply Hwidth. unfold int32_max. lia.
  - apply Hheight. unfold int32_max. lia.
  - apply (Hformat (FmtStr "float4") float4). reflexivity.
  - apply (Hblank (FmtDtype float64) float64). reflexivity.
Defined.

(** A controller made with the default storage type, after an export, a
    resize and a [map]. *)
Lemma storage_matches_descriptor_witness :
  let st' := after (sample_init CUDA_DEVICE (FmtDtype float64) 4 3 (Some 0))
               new_instance in
  (exists b' w' h' i',
     let c := self (sample_run [Get_pbo; Resize 8 6; Map] st') in
     _buffer_type c = Some b' /\
     _width c = Some w' /\ _height c = Some h' /\
     _device_idx c = Some i' /\ _device c = Some (mkDevice i') /\
     (forall a, _host_buffer c = Some a ->
        shape a = (w', h') /\
        arr_dtype a = default float64 (_pixel_format c)) /\
     (forall a, _device_buffer c = Some a ->
        shape a = (w', h') /\
        arr_dtype a = default float64 (_pixel_format c))) /\
  (exists d, resolves_to sample_resolver (FmtDtype float64) d /\
     _pixel_format (self st') = first_format float64 d).
Proof.
  apply (storage_matches_descriptor sample_itemsize float64 sample_resolver
           CUDA_DEVICE (FmtDtype float64) 4 3 (Some 0) new_instance).
  vm_compute. reflexivity.
Defined.

(** The index -1, on the sample controller and in the constructor. *)
Lemma device_idx_validation_witness :
  _set_device_idx (Some (-1)) sample_controller
  = (Raise AssertionError, sample_controller) /\
  sample_init CUDA_DEVICE (FmtStr "uchar4") 4 3 (Some (-1)) new_instance
  = (Raise AssertionError, new_instance).
Proof.
  destruct (device_idx_validation sample_itemsize float64 sample_resolver
              CUDA_DEVICE (FmtStr "uchar4") 4 3 sample_controller)
    as (_ & Hset & _ & _).
  destruct (device_idx_validation sample_itemsize float64 sample_resolver
              CUDA_DEVICE (FmtStr "uchar4") 4 3 new_instance)
    as (_ & _ & _ & Hinit).
  split; [apply Hset; lia | apply Hinit; lia].
Defined.

End CudaOutputBuffer.
